(** * A Structured Self-attentive Sentence Embedding: training script

    Shallow embedding of [train.py]:
    - [regularize], the attention penalty, over tensors stored as nested
      lists together with their shape;
    - [main], the epoch loop, as a state-passing program whose results are
      either a final state or a raised exception together with the state
      at the point of the raise.

    Tensor scalars are kept abstract in the definitions (a type with its
    arithmetic); the algebraic facts about the penalty are proved at the
    real numbers.  Python floats (the values of [.item()], [tr_loss],
    [best_val_loss]) are binary64 and are modelled by the primitive floats. *)

From Stdlib Require Import Floats.
From Stdlib Require Import List ZArith Lia Bool.
From Stdlib Require Import Reals Lra.
From Stdlib Require Import Sorted Permutation.
From Stdlib Require Uint63.
From Stdlib Require String.
Import String.StringSyntax.
Delimit Scope string_scope with string.
Import ListNotations.

Set Implicit Arguments.
Set Warnings "-inexact-float".

(* ------------------------------------------------------------------ *)
(** ** Tensors *)

Module Tensor.

Section Scalar.

(** The element type of a tensor and the arithmetic the script uses. *)
Variable F : Type.
Variables fzero fone : F.
Variables fadd fsub fmul fdiv : F -> F -> F.
Variable fsqrt : F -> F.
Variable of_nat : nat -> F.

(** Storage of a rank-3 tensor with its shape, as torch keeps a size
    next to the data. *)
Record tensor3 : Type := mk3
  { dim0 : nat; dim1 : nat; dim2 : nat; data3 : list (list (list F)) }.

Record tensor2 : Type := mk2
  { rows2 : nat; cols2 : nat; data2 : list (list F) }.

Definition get3 (X : tensor3) (b i j : nat) : F :=
  nth j (nth i (nth b (data3 X) []) []) fzero.

Definition get2 (M : tensor2) (i j : nat) : F :=
  nth j (nth i (data2 M) []) fzero.

Definition build1 (n : nat) (f : nat -> F) : list F :=
  map f (seq 0 n).

Definition build2 (n m : nat) (f : nat -> nat -> F) : tensor2 :=
  mk2 n m (map (fun i => build1 m (f i)) (seq 0 n)).

Definition build3 (n m k : nat) (f : nat -> nat -> nat -> F) : tensor3 :=
  mk3 n m k (map (fun b => map (fun i => build1 k (f b i)) (seq 0 m)) (seq 0 n)).

(** Reductions run over the indices in increasing order. *)
Definition fsum (l : list F) : F := fold_left fadd l fzero.

Definition sum_upto (n : nat) (f : nat -> F) : F := fsum (build1 n f).

(** [X.permute(0, 2, 1)] *)
Definition permute_0_2_1 (X : tensor3) : tensor3 :=
  build3 (dim0 X) (dim2 X) (dim1 X) (fun b i j => get3 X b j i).

(** [torch.bmm(X, Y)]: batched matrix product; the batch sizes and the
    inner dimensions have to agree. *)
Definition bmm (X Y : tensor3) : option tensor3 :=
  if (dim0 X =? dim0 Y)%nat && (dim2 X =? dim1 Y)%nat then
    Some (build3 (dim0 X) (dim1 X) (dim2 Y)
            (fun b i j => sum_upto (dim2 X) (fun k => fmul (get3 X b i k) (get3 Y b k j))))
  else None.

(** [torch.eye(r)] *)
Definition eye (r : nat) : tensor2 :=
  build2 r r (fun i j => if (i =? j)%nat then fone else fzero).

(** Broadcasting of one dimension: sizes agree, or one of them is 1. *)
Definition broadcast_dim (n m : nat) : option nat :=
  if (n =? m)%nat then Some n
  else if (n =? 1)%nat then Some m
  else if (m =? 1)%nat then Some n
  else None.

Definition bidx (n i : nat) : nat := if (n =? 1)%nat then 0%nat else i.

(** [X - M] for a rank-3 [X] and a rank-2 [M], with broadcasting over
    the two trailing dimensions. *)
Definition sub_broadcast (X : tensor3) (M : tensor2) : option tensor3 :=
  match broadcast_dim (dim1 X) (rows2 M), broadcast_dim (dim2 X) (cols2 M) with
  | Some n, Some m =>
      Some (build3 (dim0 X) n m
              (fun b i j => fsub (get3 X b (bidx (dim1 X) i) (bidx (dim2 X) j))
                                 (get2 M (bidx (rows2 M) i) (bidx (cols2 M) j))))
  | _, _ => None
  end.

(** [torch.norm(X, p=2, dim=(1, 2))]: one Frobenius norm per batch item. *)
Definition norm_p2_dim12 (X : tensor3) : list F :=
  build1 (dim0 X)
    (fun b => fsqrt (sum_upto (dim1 X) (fun i =>
                       sum_upto (dim2 X) (fun j => fmul (get3 X b i j) (get3 X b i j))))).

(** [v.mean()] *)
Definition mean (v : list F) : F := fdiv (fsum v) (of_nat (length v)).

(** [regularize(attn_mat, r, device)]; [None] stands for the
    [RuntimeError] torch raises on incompatible shapes. *)
Definition regularize (attn_mat : tensor3) (r : nat) : option F :=
  match bmm attn_mat (permute_0_2_1 attn_mat) with
  | Some sim_mat =>
      let identity := eye r in
      match sub_broadcast sim_mat identity with
      | Some d => Some (mean (norm_p2_dim12 d))
      | None => None
      end
  | None => None
  end.

(** *** The penalty as the specification words it *)

(** Row [i] of batch item [b]. *)
Definition row (A : tensor3) (b i : nat) : list F :=
  nth i (nth b (data3 A) []) [].

Definition dot (u v : list F) : F :=
  fsum (map (fun p => fmul (fst p) (snd p)) (combine u v)).

(** Entry (i, j) of [A_b * A_b^T - I_r]. *)
Definition item_diff (A : tensor3) (b i j : nat) : F :=
  fsub (dot (row A b i) (row A b j)) (if (i =? j)%nat then fone else fzero).

(** Frobenius norm of [A_b * A_b^T - I_r]. *)
Definition item_norm (A : tensor3) (r b : nat) : F :=
  fsqrt (sum_upto r (fun i => sum_upto r (fun j =>
           fmul (item_diff A b i j) (item_diff A b i j)))).

(** Per item norm first, batch mean second. *)
Definition spec_penalty (A : tensor3) (r : nat) : F :=
  mean (build1 (dim0 A) (item_norm A r)).

(** The other order: batch mean of the difference matrices first, one
    Frobenius norm second. *)
Definition mean_then_norm (A : tensor3) (r : nat) : F :=
  fsqrt (sum_upto r (fun i => sum_upto r (fun j =>
           let m := mean (build1 (dim0 A) (fun b => item_diff A b i j)) in
           fmul m m))).

(** The stored data has the declared shape. *)
Definition well_shaped (A : tensor3) : Prop :=
  length (data3 A) = dim0 A /\
  forall b, (b < dim0 A)%nat ->
    length (nth b (data3 A) []) = dim1 A /\
    forall i, (i < dim1 A)%nat -> length (row A b i) = dim2 A.

End Scalar.

End Tensor.

(** ** Tensors of real numbers

    The arithmetic of the penalty read over the reals: rounding, overflow
    and the order of torch's reductions are left out. *)

Module RealTensor.

Definition tensor3 : Type := Tensor.tensor3 R.

Definition regularize (attn_mat : tensor3) (r : nat) : option R :=
  Tensor.regularize 0%R 1%R Rplus Rminus Rmult Rdiv sqrt INR attn_mat r.

Definition spec_penalty (A : tensor3) (r : nat) : R :=
  Tensor.spec_penalty 0%R 1%R Rplus Rminus Rmult Rdiv sqrt INR A r.

Definition mean_then_norm (A : tensor3) (r : nat) : R :=
  Tensor.mean_then_norm 0%R 1%R Rplus Rminus Rmult Rdiv sqrt INR A r.

Definition dot (u v : list R) : R := Tensor.dot 0%R Rplus Rmult u v.


(** Attention weights: every entry is non-negative and every row sums to 1. *)
Definition is_attention (A : tensor3) : Prop :=
  Forall (Forall (fun row => Forall (fun x => (0 <= x)%R) row /\
                             Tensor.fsum 0%R Rplus row = 1%R))
         (Tensor.data3 A).

(** Two items with two attention rows over two timesteps. *)
Definition two_items : tensor3 :=
  Tensor.mk3 2 2 2 [ [ [1; 0]; [1; 0] ]; [ [1/2; 1/2]; [1/2; 1/2] ] ]%R.


End RealTensor.

(* ------------------------------------------------------------------ *)
(** ** The training run *)

Module Train.

(** Exceptions that leave [main]. *)
Inductive exn : Type :=
| UnboundLocalError   (* a local read before any assignment *)
| ZeroDivisionError   (* [%] with a zero right operand *)
| KeyError            (* a missing key of a summary dict *)
| RuntimeError        (* torch: incompatible shapes *)
| OSError.            (* a failed write of the summary or the checkpoint *)

(** A dict with string keys, in insertion order. *)
Definition dict (V : Type) : Type := list (String.string * V).

Fixpoint lookup {V : Type} (k : String.string) (d : dict V) : option V :=
  match d with
  | [] => None
  | (k', v) :: d' => if String.eqb k k' then Some v else lookup k d'
  end.

Definition keys {V : Type} (d : dict V) : list String.string := map fst d.

(** Conversion of a Python int to a float, as [/] does with an int operand. *)
Definition float_of_nat (n : nat) : float :=
  PrimFloat.of_uint63 (Uint63.of_Z (Z.of_nat n)).

(** A Python float that is neither NaN nor an infinity. *)
Definition is_finite (x : float) : bool :=
  negb (PrimFloat.is_nan x) && negb (PrimFloat.is_infinity x).

Section Run.

(** *** External collaborators *)

(** Tensor scalars with their arithmetic, and [.item()]. *)
Variable F : Type.
Variables fzero fone : F.
Variables fadd fsub fmul fdiv : F -> F -> F.
Variable fsqrt : F -> F.
Variable of_nat : nat -> F.
Variable item : F -> float.

(** The network, the optimizer and the scheduler. *)
Variables params optstate schedstate : Type.
Variables input label score : Type.

(** [model(x_mb)], in training or inference mode. *)
Variable forward : params -> bool -> input -> score * Tensor.tensor3 F.
(** [nn.CrossEntropyLoss()] and [acc]. *)
Variable loss_fn : score -> label -> F.
Variable acc : score -> label -> F.
(** [opt.zero_grad(); ...; mb_loss.backward(); opt.step()] on one batch. *)
Variable backward_step : bool -> params -> optstate -> input -> label -> params * optstate.
(** [scheduler.step(val_loss)]; the scheduler owns the learning rate kept
    in the optimizer. *)
Variable scheduler_step : schedstate -> optstate -> float -> schedstate * optstate.

(** *** Configuration and data *)

Variable r : nat.                 (* model_config.r *)
Variable epochs : Z.              (* args.epochs *)
Variable summary_step : Z.        (* args.summary_step *)

Definition minibatch : Type := (input * label)%type.

(** The batches the training loader yields in each epoch (it reshuffles),
    the value of [len(tr_dl)], and the validation batches. *)
Variable tr_dl : nat -> list minibatch.
Variable len_tr_dl : nat.
Variable val_dl : list minibatch.

(** Whether the writes of the summary and of the checkpoint succeed at
    the end of a given epoch. *)
Variable summary_save_ok : nat -> bool.
Variable checkpoint_save_ok : nat -> bool.

(** *** Observable effects *)

Inductive event : Type :=
| EvEvaluate (metrics : list String.string)
    (* a pass of [evaluate] over the validation set *)
| EvAddScalars (train val : float) (global_step : Z)
    (* [writer.add_scalars("loss", {"train": .., "val": ..}, global_step)] *)
| EvWrite (epoch : nat) (tr_loss val_loss tr_acc val_acc : float)
    (* [tqdm.write] of the epoch summary *)
| EvSummarySave (tr_summary val_summary : dict float)
    (* [summary_manager.save("summary.json")] *)
| EvCheckpointSave (epoch : nat) (model_state_dict : params) (opt_state_dict : optstate).
    (* [checkpoint_manager.save_checkpoint(state, "best.tar")] *)

(** The mutable objects and the locals of [main]. *)
Record state : Type := mkState
  { model_params : params;
    opt_state : optstate;
    sched_state : schedstate;
    training : bool;              (* the mode flag of the module *)
    best_val_loss : float;
    step : option nat;            (* [None]: not bound yet *)
    tr_loss : float;
    tr_acc : float;
    log : list event }.

Inductive result : Type :=
| Done (st : state)
| Raised (e : exn) (st : state).

Definition bind (m : result) (k : state -> result) : result :=
  match m with
  | Done st => k st
  | Raised e st => Raised e st
  end.

Definition emit (ev : event) (st : state) : state :=
  mkState (model_params st) (opt_state st) (sched_state st) (training st)
          (best_val_loss st) (step st) (tr_loss st) (tr_acc st) (log st ++ [ev]).

Definition set_training (b : bool) (st : state) : state :=
  mkState (model_params st) (opt_state st) (sched_state st) b
          (best_val_loss st) (step st) (tr_loss st) (tr_acc st) (log st).

Definition set_best_val_loss (v : float) (st : state) : state :=
  mkState (model_params st) (opt_state st) (sched_state st) (training st)
          v (step st) (tr_loss st) (tr_acc st) (log st).

Definition set_step (s : nat) (st : state) : state :=
  mkState (model_params st) (opt_state st) (sched_state st) (training st)
          (best_val_loss st) (Some s) (tr_loss st) (tr_acc st) (log st).

Definition set_sums (l a : float) (st : state) : state :=
  mkState (model_params st) (opt_state st) (sched_state st) (training st)
          (best_val_loss st) (step st) l a (log st).

Definition set_model (p : params) (o : optstate) (st : state) : state :=
  mkState p o (sched_state st) (training st)
          (best_val_loss st) (step st) (tr_loss st) (tr_acc st) (log st).

Definition set_sched (s : schedstate) (o : optstate) (st : state) : state :=
  mkState (model_params st) o s (training st)
          (best_val_loss st) (step st) (tr_loss st) (tr_acc st) (log st).

(** *** [evaluate] *)

(** Modelled from the spec: the average [evaluate] takes (section 4.5, a
    scalar averaged over all batches of the dataset), as the sum of the
    metric over the batches, the network in inference mode, divided by the
    number of batches. *)
Definition metric_sum (p : params) (dl : list minibatch) (metric : score -> label -> F) : float :=
  fold_left (fun s mb => PrimFloat.add s (item (metric (fst (forward p false (fst mb))) (snd mb))))
            dl 0%float.

Definition metric_mean (p : params) (dl : list minibatch) (metric : score -> label -> F) : float :=
  PrimFloat.div (metric_sum p dl metric) (float_of_nat (length dl)).

(** Modelled from the spec: [evaluate] of [model/metric.py] is not among
    the sources.  Section 4.5: given a model, a dataset and a mapping of
    metric name to metric function it produces a mapping of metric name to
    the scalar averaged over all batches of the dataset; it places the
    model in inference mode and changes no model or optimizer state; the
    caller re-enters training mode afterwards. *)
Definition evaluate (st : state) (dl : list minibatch) (metrics : dict (score -> label -> F))
  : dict float * state :=
  (map (fun km => (fst km, metric_mean (model_params st) dl (snd km))) metrics,
   emit (EvEvaluate (keys metrics)) (set_training false st)).

(** *** One iteration of the inner loop (lines 81-102)

    The set-up of lines 43-72 (configuration, tokenizer, loaders, network,
    optimizer, scheduler, writer, managers) is what the variables above
    stand for; the command line is taken with its integer defaults. *)

Definition global_step (epoch s : nat) : Z :=
  (Z.of_nat epoch * Z.of_nat len_tr_dl + Z.of_nat s)%Z.

(** Lines 85-88: the forward pass and the loss of the batch, the
    cross-entropy with the penalty added in place. *)
Definition forward_loss (st : state) (x_mb : input) (y_mb : label) : option (score * F) :=
  let (score_, attn_mat) := forward (model_params st) (training st) x_mb in
  match Tensor.regularize fzero fone fadd fsub fmul fdiv fsqrt of_nat attn_mat r with
  | None => None
  | Some reg =>
      let mb_loss := loss_fn score_ y_mb in
      let mb_loss := fadd mb_loss reg in
      Some (score_, mb_loss)
  end.

(** Lines 89-96: the backward pass and the optimizer step, then the two
    running sums. *)
Definition update_and_accumulate (st : state) (x_mb : input) (y_mb : label)
           (score_ : score) (mb_loss : F) : state :=
  let (p', o') := backward_step (training st) (model_params st) (opt_state st) x_mb y_mb in
  let st := set_model p' o' st in
  let mb_acc := acc score_ y_mb in
  set_sums (PrimFloat.add (tr_loss st) (item mb_loss))
           (PrimFloat.add (tr_acc st) (item mb_acc)) st.

Definition train_step (epoch : nat) (st : state) (smb : nat * minibatch) : result :=
  let s := fst smb in
  let x_mb := fst (snd smb) in
  let y_mb := snd (snd smb) in
  let st := set_step s st in
  match forward_loss st x_mb y_mb with
  | None => Raised RuntimeError st
  | Some (score_, mb_loss) =>
      let st := update_and_accumulate st x_mb y_mb score_ mb_loss in
      if (summary_step =? 0)%Z then Raised ZeroDivisionError st
      else if (global_step epoch s mod summary_step =? 0)%Z then
        let (val_summary, st) := evaluate st val_dl [("loss"%string, loss_fn)] in
        match lookup "loss"%string val_summary with
        | None => Raised KeyError st
        | Some val_loss =>
            let st := emit (EvAddScalars (PrimFloat.div (tr_loss st) (float_of_nat (s + 1)))
                                         val_loss (global_step epoch s)) st in
            Done (set_training true st)
        end
      else Done st
  end.

(** [enumerate] *)
Definition enumerate {A : Type} (l : list A) : list (nat * A) :=
  combine (seq 0 (length l)) l.

(** A [for] loop whose body may raise. *)
Fixpoint for_each {A : Type} (body : state -> A -> result) (l : list A) (st : state) : result :=
  match l with
  | [] => Done st
  | a :: l' => bind (body st a) (for_each body l')
  end.

(** *** The checkpoint decision (lines 115-127) *)

Definition checkpoint_decision (epoch : nat) (tr_summary val_summary : dict float)
           (val_loss : float) (st : state) : result :=
  let is_best := PrimFloat.ltb val_loss (best_val_loss st) in
  if is_best then
    if summary_save_ok epoch then
      let st := emit (EvSummarySave tr_summary val_summary) st in
      if checkpoint_save_ok epoch then
        let st := emit (EvCheckpointSave (epoch + 1) (model_params st) (opt_state st)) st in
        Done (set_best_val_loss val_loss st)
      else Raised OSError st
    else Raised OSError st
  else Done st.

(** *** The [else] block of the inner loop (lines 104-127) *)

Definition epoch_end (epoch : nat) (st : state) : result :=
  match step st with
  | None => Raised UnboundLocalError st
  | Some s =>
      let st := set_sums (PrimFloat.div (tr_loss st) (float_of_nat (s + 1)))
                         (PrimFloat.div (tr_acc st) (float_of_nat (s + 1))) st in
      let tr_summary := [("loss"%string, tr_loss st); ("acc"%string, tr_acc st)] in
      let (val_summary, st) :=
        evaluate st val_dl [("loss"%string, loss_fn); ("acc"%string, acc)] in
      match lookup "loss"%string val_summary with
      | None => Raised KeyError st
      | Some vl =>
          let (s', o') := scheduler_step (sched_state st) (opt_state st) vl in
          let st := set_sched s' o' st in
          match lookup "acc"%string val_summary with
          | None => Raised KeyError st
          | Some va =>
              let st := emit (EvWrite (epoch + 1) (tr_loss st) vl (tr_acc st) va) st in
              let val_loss := vl in
              checkpoint_decision epoch tr_summary val_summary val_loss st
          end
      end
  end.

(** *** One epoch and the whole run *)

Definition run_epoch (st : state) (epoch : nat) : result :=
  let st := set_sums 0%float 0%float st in
  let st := set_training true st in
  bind (for_each (train_step epoch) (enumerate (tr_dl epoch)) st) (epoch_end epoch).

Definition init_state (p0 : params) (o0 : optstate) (s0 : schedstate) : state :=
  mkState p0 o0 s0 true 1e10%float None 0%float 0%float [].

Definition main (p0 : params) (o0 : optstate) (s0 : schedstate) : result :=
  for_each run_epoch (seq 0 (Z.to_nat epochs)) (init_state p0 o0 s0).

(** *** Readings of the log *)

Definition is_checkpoint_save (ev : event) : bool :=
  match ev with EvCheckpointSave _ _ _ => true | _ => false end.

Definition count_saves (l : list event) : nat :=
  length (filter is_checkpoint_save l).

Definition final_state (res : result) : state :=
  match res with Done st => st | Raised _ st => st end.


End Run.

End Train.

(** ** A small instance

    Tensor scalars are binary64 floats.  The weights are a counter of the
    optimizer steps taken, the network returns that counter as its score
    and its input as the attention tensor, and the cross-entropy is read
    from a table indexed by the score. *)

Module Toy.

(** One item whose two attention rows look at different timesteps. *)
Definition x_diverse : Tensor.tensor3 float :=
  Tensor.mk3 1 2 2 [ [ [1; 0]; [0; 1] ] ]%float.

Definition mb : Train.minibatch (Tensor.tensor3 float) unit := (x_diverse, tt).

(** One item whose two attention rows look at the same timestep. *)
Definition x_overlap : Tensor.tensor3 float :=
  Tensor.mk3 1 2 2 [ [ [1; 0]; [1; 0] ] ]%float.

Definition mb_overlap : Train.minibatch (Tensor.tensor3 float) unit := (x_overlap, tt).

Section Table.

Variable losses : list float.

Definition forward (p : nat) (mode : bool) (x : Tensor.tensor3 float)
  : nat * Tensor.tensor3 float := (p, x).

Definition loss_fn (s : nat) (y : unit) : float := nth s losses 0%float.

Definition acc (s : nat) (y : unit) : float := 1%float.

Definition backward_step (mode : bool) (p : nat) (o : unit)
           (x : Tensor.tensor3 float) (y : unit) : nat * unit := (S p, o).

Definition scheduler_step (s o : unit) (v : float) : unit * unit := (s, o).

Definition regularize (x : Tensor.tensor3 float) (r : nat) : option float :=
  Tensor.regularize 0%float 1%float PrimFloat.add PrimFloat.sub PrimFloat.mul
    PrimFloat.div PrimFloat.sqrt Train.float_of_nat x r.

Definition train_step (summary_step : Z) (len_tr_dl : nat)
           (val_dl : list (Train.minibatch (Tensor.tensor3 float) unit)) :=
  Train.train_step 0%float 1%float PrimFloat.add PrimFloat.sub PrimFloat.mul
    PrimFloat.div PrimFloat.sqrt Train.float_of_nat (fun x : float => x)
    forward loss_fn acc backward_step (schedstate := unit)
    2 summary_step len_tr_dl val_dl.

Definition main (epochs summary_step : Z)
           (tr_dl : nat -> list (Train.minibatch (Tensor.tensor3 float) unit))
           (len_tr_dl : nat)
           (val_dl : list (Train.minibatch (Tensor.tensor3 float) unit))
           (summary_save_ok checkpoint_save_ok : nat -> bool) :=
  Train.main 0%float 1%float PrimFloat.add PrimFloat.sub PrimFloat.mul
    PrimFloat.div PrimFloat.sqrt Train.float_of_nat (fun x : float => x)
    forward loss_fn acc backward_step scheduler_step
    2 epochs summary_step tr_dl len_tr_dl val_dl
    summary_save_ok checkpoint_save_ok 0%nat tt tt.

End Table.

Definition always (b : bool) (epoch : nat) : bool := b.

(** A state at the start of a run, for the checkpoint decisions alone. *)
Definition start : Train.state nat unit unit := Train.init_state 0%nat tt tt.

End Toy.

(* ------------------------------------------------------------------ *)
(** ** Readings of the event log *)

Module Trace.

Section Events.

Variables params optstate : Type.

Definition is_write (ev : Train.event params optstate) : bool :=
  match ev with Train.EvWrite _ _ _ _ _ _ _ => true | _ => false end.

Definition is_summary_save (ev : Train.event params optstate) : bool :=
  match ev with Train.EvSummarySave _ _ _ _ => true | _ => false end.

(** Events of the periodic validation inside the inner loop. *)
Definition is_periodic (ev : Train.event params optstate) : bool :=
  match ev with Train.EvEvaluate _ _ _ | Train.EvAddScalars _ _ _ _ _ => true | _ => false end.

Definition count_writes (l : list (Train.event params optstate)) : nat :=
  length (filter is_write l).

Definition count_summary_saves (l : list (Train.event params optstate)) : nat :=
  length (filter is_summary_save l).

(** The global steps given to [writer.add_scalars], in the order of the calls. *)
Fixpoint scalar_steps (l : list (Train.event params optstate)) : list Z :=
  match l with
  | [] => []
  | Train.EvAddScalars _ _ _ _ g :: l' => g :: scalar_steps l'
  | _ :: l' => scalar_steps l'
  end.

(** The validation summary of the last [summary.json] written, if any. *)
Fixpoint last_saved_summary (l : list (Train.event params optstate))
  : option (Train.dict float) :=
  match l with
  | [] => None
  | ev :: l' =>
      match last_saved_summary l' with
      | Some d => Some d
      | None => match ev with Train.EvSummarySave _ _ _ vs => Some vs | _ => None end
      end
  end.

End Events.

Section States.

Variables params optstate schedstate : Type.

(** The later state has the tracker of the earlier one, and its log is the
    earlier log followed by events of the periodic validation only. *)
Definition loop_related (st st' : Train.state params optstate schedstate) : Prop :=
  Train.best_val_loss st' = Train.best_val_loss st /\
  exists l, Train.log st' = Train.log st ++ l /\
            Forall (fun ev => is_periodic ev = true) l.

(** The tracker agrees with the last summary written, or is the sentinel
    when none was written. *)
Definition tracker_matches_summary (st : Train.state params optstate schedstate) : Prop :=
  match last_saved_summary (Train.log st) with
  | None => Train.best_val_loss st = 1e10%float
  | Some vs => Train.lookup "loss"%string vs = Some (Train.best_val_loss st)
  end.

(** The global steps logged so far are strictly increasing and all below
    [bound]. *)
Definition steps_below (bound : Z) (st : Train.state params optstate schedstate) : Prop :=
  StronglySorted Z.lt (scalar_steps (Train.log st)) /\
  Forall (fun g => (g < bound)%Z) (scalar_steps (Train.log st)).

(** After [n] completed epochs: one report per epoch, every summary saved
    with its checkpoint. *)
Definition completed_counts (n : nat) (st : Train.state params optstate schedstate) : Prop :=
  count_writes (Train.log st) = n /\
  count_summary_saves (Train.log st) = Train.count_saves (Train.log st) /\
  (Train.count_saves (Train.log st) <= n)%nat.

(** In a state an epoch among the first [n] raised in. *)
Definition raised_counts (n : nat) (st : Train.state params optstate schedstate) : Prop :=
  (count_writes (Train.log st) <= n)%nat /\
  (Train.count_saves (Train.log st) <= count_summary_saves (Train.log st))%nat /\
  (count_summary_saves (Train.log st) <= Train.count_saves (Train.log st) + 1)%nat /\
  (count_summary_saves (Train.log st) <= n)%nat.

End States.

End Trace.

(* ------------------------------------------------------------------ *)
(** ** The data loaders (lines 26-32)

    [Corpus] and [batchify] are not among the sources: a dataset is the
    list of its examples and [collate_fn] a function from a group of
    examples to a batch.  [DataLoader] is torch's: its batch sampler walks
    the examples in the order of the sampler, yields a group each time
    [batch_size] examples are collected, and yields the shorter last group
    only without [drop_last]. *)

Module Loader.

Section Loaders.

Variable example : Type.
Variable batch : Type.
Variable collate_fn : list example -> batch.

Fixpoint batch_sampler (batch_size : nat) (drop_last : bool)
         (current : list example) (l : list example) : list (list example) :=
  match l with
  | [] => if (0 <? length current)%nat && negb drop_last then [current] else []
  | x :: l' =>
      let current := current ++ [x] in
      if (length current =? batch_size)%nat
      then current :: batch_sampler batch_size drop_last [] l'
      else batch_sampler batch_size drop_last current l'
  end.

Record DataLoader : Type := mkDataLoader
  { dataset : list example;
    batch_size : nat;
    shuffle : bool;
    drop_last : bool }.

(** The groups of examples of one pass; [order] is the permutation the
    random sampler draws for the pass. *)
Definition groups (order : list example -> list example) (dl : DataLoader)
  : list (list example) :=
  batch_sampler (batch_size dl) (drop_last dl) []
    (if shuffle dl then order (dataset dl) else dataset dl).

(** Iterating the loader. *)
Definition batches (order : list example -> list example) (dl : DataLoader) : list batch :=
  map collate_fn (groups order dl).

(** [len(dl)] *)
Definition len (dl : DataLoader) : nat :=
  if drop_last dl
  then (length (dataset dl) / batch_size dl)%nat
  else ((length (dataset dl) + batch_size dl - 1) / batch_size dl)%nat.

(** [get_data_loaders]; [None] stands for the [ValueError] of [DataLoader]
    on a batch size that is not positive. *)
Definition get_data_loaders (tr_ds val_ds : list example) (batch_size : Z)
  : option (DataLoader * DataLoader) :=
  if (batch_size <=? 0)%Z then None
  else
    let tr_dl := mkDataLoader tr_ds (Z.to_nat batch_size) true true in
    let val_dl := mkDataLoader val_ds (Z.to_nat batch_size) false false in
    Some (tr_dl, val_dl).

End Loaders.

End Loader.

(* ------------------------------------------------------------------ *)
(** ** [main] on the loaders of [get_data_loaders] (line 60) *)

Module Pipeline.

Section Run.

Variable F : Type.
Variables fzero fone : F.
Variables fadd fsub fmul fdiv : F -> F -> F.
Variable fsqrt : F -> F.
Variable of_nat : nat -> F.
Variable item : F -> float.
Variables params optstate schedstate : Type.
Variables input label score : Type.
Variable forward : params -> bool -> input -> score * Tensor.tensor3 F.
Variable loss_fn : score -> label -> F.
Variable acc : score -> label -> F.
Variable backward_step : bool -> params -> optstate -> input -> label -> params * optstate.
Variable scheduler_step : schedstate -> optstate -> float -> schedstate * optstate.
Variable r : nat.
Variable epochs : Z.
Variable summary_step : Z.
Variable summary_save_ok : nat -> bool.
Variable checkpoint_save_ok : nat -> bool.

Variable example : Type.
Variable collate_fn : list example -> Train.minibatch input label.
(** The permutation the random sampler draws in each epoch. *)
Variable order : nat -> list example -> list example.

Definition main_on_loaders (tr_dl val_dl : Loader.DataLoader example)
           (p0 : params) (o0 : optstate) (s0 : schedstate)
  : Train.result params optstate schedstate :=
  Train.main fzero fone fadd fsub fmul fdiv fsqrt of_nat item forward loss_fn acc
    backward_step scheduler_step r epochs summary_step
    (fun epoch => Loader.batches collate_fn (order epoch) tr_dl) (Loader.len tr_dl)
    (Loader.batches collate_fn (fun l => l) val_dl)
    summary_save_ok checkpoint_save_ok p0 o0 s0.

End Run.

End Pipeline.

(* ------------------------------------------------------------------ *)
(** ** Facts about tensors, for any scalar type *)

Module TensorFacts.
Import Tensor.

Section Scalar.

Variable F : Type.
Variables fzero fone : F.
Variables fadd fsub fmul fdiv : F -> F -> F.
Variable fsqrt : F -> F.
Variable of_nat : nat -> F.

Lemma nth_build1 (n : nat) (f : nat -> F) (i : nat) (d : F) :
  (i < n)%nat -> nth i (build1 n f) d = f i.
Proof.
  intros Hi. unfold build1.
  rewrite (nth_indep _ d (f 0%nat)) by (rewrite length_map, length_seq; exact Hi).
  rewrite (map_nth f (seq 0 n) 0%nat i), seq_nth by exact Hi. reflexivity.
Qed.

Lemma length_build1 (n : nat) (f : nat -> F) : length (build1 n f) = n.
Proof. unfold build1. now rewrite length_map, length_seq. Qed.

Lemma nth_map_seq {A : Type} (n : nat) (f : nat -> A) (i : nat) (d : A) :
  (i < n)%nat -> nth i (map f (seq 0 n)) d = f i.
Proof.
  intros Hi.
  rewrite (nth_indep _ d (f 0%nat)) by (rewrite length_map, length_seq; exact Hi).
  rewrite (map_nth f (seq 0 n) 0%nat i), seq_nth by exact Hi. reflexivity.
Qed.

Lemma get3_build3 (n m k : nat) (f : nat -> nat -> nat -> F) (b i j : nat) :
  (b < n)%nat -> (i < m)%nat -> (j < k)%nat ->
  get3 fzero (build3 n m k f) b i j = f b i j.
Proof.
  intros Hb Hi Hj. unfold get3, build3. cbn [data3].
  rewrite (nth_map_seq _ _ Hb), (nth_map_seq _ _ Hi).
  now apply nth_build1.
Qed.

Lemma get2_build2 (n m : nat) (f : nat -> nat -> F) (i j : nat) :
  (i < n)%nat -> (j < m)%nat -> get2 fzero (build2 n m f) i j = f i j.
Proof.
  intros Hi Hj. unfold get2, build2. cbn [data2].
  rewrite (nth_map_seq _ _ Hi). now apply nth_build1.
Qed.

Lemma build1_ext (n : nat) (f g : nat -> F) :
  (forall i, (i < n)%nat -> f i = g i) -> build1 n f = build1 n g.
Proof.
  intros H. unfold build1. apply map_ext_in.
  intros i Hi. apply in_seq in Hi. apply H. lia.
Qed.

Lemma sum_upto_ext (n : nat) (f g : nat -> F) :
  (forall i, (i < n)%nat -> f i = g i) ->
  sum_upto fzero fadd n f = sum_upto fzero fadd n g.
Proof. intros H. unfold sum_upto. now rewrite (build1_ext f g H). Qed.

Lemma dims_build3 (n m k : nat) (f : nat -> nat -> nat -> F) :
  dim0 (build3 n m k f) = n /\ dim1 (build3 n m k f) = m /\ dim2 (build3 n m k f) = k.
Proof. now repeat split. Qed.

(** The products of two rows, entry by entry, whether the rows are read
    by index or walked together. *)
Lemma products_by_index (u v : list F) (s : nat) :
  length u = length v ->
  map (fun k => fmul (nth (k - s) u fzero) (nth (k - s) v fzero)) (seq s (length u))
  = map (fun p => fmul (fst p) (snd p)) (combine u v).
Proof.
  revert v s. induction u as [|a u IH]; intros [|c v] s Hlen; try discriminate.
  - reflexivity.
  - cbn [length seq map combine fst snd]. f_equal.
    + now rewrite Nat.sub_diag.
    + injection Hlen as Hlen. rewrite <- (IH v (S s) Hlen).
      apply map_ext_in. intros k Hk. apply in_seq in Hk.
      replace (k - s)%nat with (S (k - S s)) by lia. reflexivity.
Qed.

Lemma dot_by_index (u v : list F) (t : nat) :
  length u = t -> length v = t ->
  sum_upto fzero fadd t (fun k => fmul (nth k u fzero) (nth k v fzero))
  = dot fzero fadd fmul u v.
Proof.
  intros Hu Hv. unfold sum_upto, dot, build1. f_equal.
  rewrite <- (products_by_index u v 0) by congruence.
  rewrite Hu. apply map_ext. intros k. now rewrite Nat.sub_0_r.
Qed.

Lemma bidx_same (n i : nat) : (i < n)%nat -> bidx n i = i.
Proof. unfold bidx. destruct (Nat.eqb_spec n 1); lia. Qed.

Lemma broadcast_dim_same (n : nat) : broadcast_dim n n = Some n.
Proof. unfold broadcast_dim. now rewrite Nat.eqb_refl. Qed.

(** Entry (b, i, j) of [bmm(A, A.permute(0, 2, 1))] is the dot product of
    rows i and j of item b. *)
Lemma sim_entry (A : tensor3 F) (b i j : nat) :
  well_shaped A -> (b < dim0 A)%nat -> (i < dim1 A)%nat -> (j < dim1 A)%nat ->
  sum_upto fzero fadd (dim2 A)
    (fun k => fmul (get3 fzero A b i k) (get3 fzero (permute_0_2_1 fzero A) b k j))
  = dot fzero fadd fmul (row A b i) (row A b j).
Proof.
  intros [_ Hws] Hb Hi Hj.
  destruct (Hws b Hb) as [_ Hrow].
  rewrite <- (dot_by_index (row A b i) (row A b j) (Hrow i Hi) (Hrow j Hj)).
  apply sum_upto_ext. intros k Hk.
  unfold permute_0_2_1. rewrite get3_build3 by assumption. reflexivity.
Qed.

Lemma bmm_self (A : tensor3 F) :
  bmm fzero fadd fmul A (permute_0_2_1 fzero A)
  = Some (build3 (dim0 A) (dim1 A) (dim1 A)
            (fun b i j => sum_upto fzero fadd (dim2 A) (fun k =>
               fmul (get3 fzero A b i k) (get3 fzero (permute_0_2_1 fzero A) b k j)))).
Proof.
  unfold bmm.
  change (dim0 (permute_0_2_1 fzero A)) with (dim0 A).
  change (dim1 (permute_0_2_1 fzero A)) with (dim2 A).
  change (dim2 (permute_0_2_1 fzero A)) with (dim1 A).
  now rewrite !Nat.eqb_refl.
Qed.

Lemma sub_broadcast_eye (X : tensor3 F) (r : nat) :
  dim1 X = r -> dim2 X = r ->
  sub_broadcast fzero fsub X (eye fzero fone r)
  = Some (build3 (dim0 X) r r
            (fun b i j => fsub (get3 fzero X b (bidx r i) (bidx r j))
                               (get2 fzero (eye fzero fone r) (bidx r i) (bidx r j)))).
Proof.
  intros H1 H2. unfold sub_broadcast.
  change (rows2 (eye fzero fone r)) with r.
  change (cols2 (eye fzero fone r)) with r.
  now rewrite H1, H2, !broadcast_dim_same.
Qed.

(** [regularize] computes what the specification describes: one norm per
    item, then the mean over the batch. *)
Lemma regularize_refines (A : tensor3 F) (r : nat) :
  well_shaped A -> dim1 A = r ->
  regularize fzero fone fadd fsub fmul fdiv fsqrt of_nat A r
  = Some (spec_penalty fzero fone fadd fsub fmul fdiv fsqrt of_nat A r).
Proof.
  intros Hws Hr. unfold regularize.
  rewrite bmm_self, sub_broadcast_eye by exact Hr.
  unfold spec_penalty. do 2 f_equal.
  unfold norm_p2_dim12.
  match goal with
  | |- context [dim0 (build3 ?n ?m ?k ?f)] => change (dim0 (build3 n m k f)) with n
  end.
  match goal with
  | |- context [dim1 (build3 ?n ?m ?k ?f)] => change (dim1 (build3 n m k f)) with m
  end.
  match goal with
  | |- context [dim2 (build3 ?n ?m ?k ?f)] => change (dim2 (build3 n m k f)) with k
  end.
  match goal with
  | |- context [dim0 (build3 ?n ?m ?k ?f)] => change (dim0 (build3 n m k f)) with n
  end.
  apply build1_ext. intros b Hb. unfold item_norm. f_equal.
  apply sum_upto_ext. intros i Hi. apply sum_upto_ext. intros j Hj.
  rewrite get3_build3 by assumption.
  rewrite !bidx_same by assumption.
  assert (Hi' : (i < dim1 A)%nat) by now rewrite Hr.
  assert (Hj' : (j < dim1 A)%nat) by now rewrite Hr.
  rewrite get3_build3 by assumption.
  unfold eye. rewrite get2_build2 by assumption.
  unfold item_diff.
  rewrite sim_entry by assumption. reflexivity.
Qed.

(** Row counts that do not broadcast leave [regularize] without a value. *)
Lemma regularize_incompatible_rows (A : tensor3 F) (r : nat) :
  dim1 A <> r -> dim1 A <> 1%nat -> r <> 1%nat ->
  regularize fzero fone fadd fsub fmul fdiv fsqrt of_nat A r = None.
Proof.
  intros H1 H2 H3. unfold regularize. rewrite bmm_self.
  unfold sub_broadcast.
  change (dim1 (build3 (dim0 A) (dim1 A) (dim1 A) ?f)) with (dim1 A).
  change (rows2 (eye fzero fone r)) with r.
  unfold broadcast_dim at 1.
  destruct (Nat.eqb_spec (dim1 A) r); [contradiction |].
  destruct (Nat.eqb_spec (dim1 A) 1); [contradiction |].
  destruct (Nat.eqb_spec r 1); [contradiction |]. reflexivity.
Qed.

End Scalar.

End TensorFacts.

(* ------------------------------------------------------------------ *)
(** ** The penalty over the reals *)

Module PenaltyFacts.
Import Tensor.

Local Open Scope R_scope.

Lemma fold_left_Rplus_shift (l : list R) (a : R) :
  fold_left Rplus l a = a + fsum 0 Rplus l.
Proof.
  unfold fsum. revert a. induction l as [|x l IH]; intros a; cbn [fold_left].
  - lra.
  - rewrite (IH (a + x)), (IH (0 + x)). lra.
Qed.

Lemma fsum_cons (x : R) (l : list R) :
  fsum 0 Rplus (x :: l) = x + fsum 0 Rplus l.
Proof.
  unfold fsum at 1. cbn [fold_left]. rewrite fold_left_Rplus_shift. lra.
Qed.

Lemma fsum_nonneg (l : list R) :
  Forall (fun x => 0 <= x) l -> 0 <= fsum 0 Rplus l.
Proof.
  induction 1 as [|x l Hx _ IH].
  - unfold fsum. cbn. lra.
  - rewrite fsum_cons. lra.
Qed.


Lemma Forall_build1 (P : R -> Prop) (n : nat) (f : nat -> R) :
  Forall P (build1 n f) <-> forall i, (i < n)%nat -> P (f i).
Proof.
  unfold build1. rewrite Forall_map, Forall_forall. split.
  - intros H i Hi. apply H, in_seq. lia.
  - intros H i Hi. apply in_seq in Hi. apply H. lia.
Qed.

Lemma sum_upto_nonneg (n : nat) (f : nat -> R) :
  (forall i, (i < n)%nat -> 0 <= f i) -> 0 <= sum_upto 0 Rplus n f.
Proof. intros H. apply fsum_nonneg, Forall_build1, H. Qed.


Lemma square_nonneg (x : R) : 0 <= x * x.
Proof. nra. Qed.


(** The sum of squares under the root of one item's norm. *)
Lemma item_squares_nonneg (A : tensor3 R) (r b : nat) :
  0 <= sum_upto 0 Rplus r (fun i => sum_upto 0 Rplus r (fun j =>
         item_diff 0 1 Rplus Rminus Rmult A b i j * item_diff 0 1 Rplus Rminus Rmult A b i j)).
Proof.
  apply sum_upto_nonneg. intros i _. apply sum_upto_nonneg. intros j _.
  apply square_nonneg.
Qed.

Lemma item_norm_nonneg (A : tensor3 R) (r b : nat) :
  0 <= item_norm 0 1 Rplus Rminus Rmult sqrt A r b.
Proof. unfold item_norm. apply sqrt_pos. Qed.


Lemma spec_penalty_nonneg (A : tensor3 R) (r : nat) :
  (0 < dim0 A)%nat -> 0 <= RealTensor.spec_penalty A r.
Proof.
  intros HB. unfold RealTensor.spec_penalty, spec_penalty, mean.
  rewrite TensorFacts.length_build1.
  apply Rmult_le_pos.
  - apply sum_upto_nonneg. intros b _. apply item_norm_nonneg.
  - left. apply Rinv_0_lt_compat, lt_0_INR, HB.
Qed.


(** *** Concrete tensors *)

Ltac below_bound H :=
  cbn in H; lia.

Ltac shape_of_literal :=
  split; [reflexivity |];
  let b := fresh "b" in let Hb := fresh "Hb" in
  intros b Hb;
  repeat (destruct b as [|b]; [| try below_bound Hb]);
  (split; [reflexivity |]);
  let i := fresh "i" in let Hi := fresh "Hi" in
  intros i Hi;
  repeat (destruct i as [|i]; [reflexivity | try below_bound Hi]).

Lemma two_items_well_shaped : well_shaped RealTensor.two_items.
Proof. shape_of_literal. Qed.


Lemma two_items_is_attention : RealTensor.is_attention RealTensor.two_items.
Proof.
  unfold RealTensor.is_attention, RealTensor.two_items. cbn [data3].
  repeat constructor; cbv [fsum fold_left]; lra.
Qed.

Lemma two_items_regularize :
  RealTensor.regularize RealTensor.two_items 2 = Some ((sqrt 2 + 1) / 2).
Proof.
  cbv - [Rplus Rminus Rmult Rdiv sqrt INR IZR].
  change (INR 2) with (1 + 1). f_equal.
  match goal with
  | |- (0 + sqrt ?a + sqrt ?c) / _ = _ =>
      replace a with 2 by lra; replace c with 1 by lra
  end.
  rewrite sqrt_1. lra.
Qed.

Lemma two_items_mean_then_norm :
  RealTensor.mean_then_norm RealTensor.two_items 2 = sqrt (5 / 4).
Proof.
  cbv - [Rplus Rminus Rmult Rdiv sqrt INR IZR].
  change (INR 2) with (1 + 1). f_equal. lra.
Qed.

Lemma sqrt2_plus_1_half_neq : (sqrt 2 + 1) / 2 <> sqrt (5 / 4).
Proof.
  intros H.
  assert (H2 : sqrt 2 * sqrt 2 = 2) by (apply sqrt_sqrt; lra).
  assert (H5 : sqrt (5 / 4) * sqrt (5 / 4) = 5 / 4) by (apply sqrt_sqrt; lra).
  rewrite <- H in H5.
  assert (E : sqrt 2 = 1) by nra.
  rewrite E in H2. lra.
Qed.


(* ------------------------------------------------------------------ *)
(** *** The order of norm and mean *)

(** C1. For an attention tensor of shape B x r x T, [regularize] forms for
    every batch item the r x r matrix of row dot products, subtracts the
    identity, takes the Frobenius norm of the item, and averages the B
    norms; this holds for any scalar arithmetic.  Over the reals the result
    differs, on a tensor of attention weights, from taking the batch mean
    of the difference matrices first and one norm second. *)
Theorem regularize_norm_per_item_then_mean :
  (forall (F : Type) (fzero fone : F) (fadd fsub fmul fdiv : F -> F -> F)
          (fsqrt : F -> F) (of_nat : nat -> F) (A : tensor3 F) (r : nat),
      well_shaped A -> dim1 A = r ->
      regularize fzero fone fadd fsub fmul fdiv fsqrt of_nat A r
      = Some (spec_penalty fzero fone fadd fsub fmul fdiv fsqrt of_nat A r)) /\
  (exists (A : RealTensor.tensor3) (r : nat),
      well_shaped A /\ dim1 A = r /\ RealTensor.is_attention A /\
      RealTensor.regularize A r <> Some (RealTensor.mean_then_norm A r)).
Proof.
  split.
  - intros. now apply TensorFacts.regularize_refines.
  - exists RealTensor.two_items, 2%nat.
    split; [apply two_items_well_shaped |].
    split; [reflexivity |].
    split; [apply two_items_is_attention |].
    rewrite two_items_regularize, two_items_mean_then_norm.
    intros H. injection H as H. now apply sqrt2_plus_1_half_neq.
Qed.

Lemma regularize_norm_per_item_then_mean_witness :
  well_shaped RealTensor.two_items /\ dim1 RealTensor.two_items = 2%nat /\
  RealTensor.regularize RealTensor.two_items 2
  = Some (RealTensor.spec_penalty RealTensor.two_items 2).
Proof.
  split; [apply two_items_well_shaped |].
  split; [reflexivity |].
  apply (proj1 regularize_norm_per_item_then_mean R 0 1 Rplus Rminus Rmult Rdiv sqrt INR
           RealTensor.two_items 2%nat).
  - apply two_items_well_shaped.
  - reflexivity.
Defined.



End PenaltyFacts.

(* ------------------------------------------------------------------ *)
(** ** Facts about the training run *)

Module TrainFacts.
Import Train.


Lemma lookup_head {V : Type} (k : String.string) (v : V) (d : dict V) :
  lookup k ((k, v) :: d) = Some v.
Proof. cbn [lookup]. now rewrite String.eqb_refl. Qed.

Section Run.

Variable F : Type.
Variables fzero fone : F.
Variables fadd fsub fmul fdiv : F -> F -> F.
Variable fsqrt : F -> F.
Variable of_nat : nat -> F.
Variable item : F -> float.
Variables params optstate schedstate : Type.
Variables input label score : Type.
Variable forward : params -> bool -> input -> score * Tensor.tensor3 F.
Variable loss_fn : score -> label -> F.
Variable acc : score -> label -> F.
Variable backward_step : bool -> params -> optstate -> input -> label -> params * optstate.
Variable scheduler_step : schedstate -> optstate -> float -> schedstate * optstate.
Variable r : nat.
Variable epochs : Z.
Variable summary_step : Z.
Variable tr_dl : nat -> list (minibatch input label).
Variable len_tr_dl : nat.
Variable val_dl : list (minibatch input label).
Variable summary_save_ok : nat -> bool.
Variable checkpoint_save_ok : nat -> bool.

Local Abbreviation state := (state params optstate schedstate).
Local Abbreviation result := (result params optstate schedstate).
Local Abbreviation regularize :=
  (Tensor.regularize fzero fone fadd fsub fmul fdiv fsqrt of_nat).
Local Abbreviation evaluate := (evaluate item forward (schedstate := schedstate) (optstate := optstate)).
Local Abbreviation metric_mean := (metric_mean item forward).
Local Abbreviation train_step :=
  (train_step fzero fone fadd fsub fmul fdiv fsqrt of_nat item forward loss_fn acc
              backward_step (schedstate := schedstate) r summary_step len_tr_dl val_dl).
Local Abbreviation forward_loss :=
  (forward_loss fzero fone fadd fsub fmul fdiv fsqrt of_nat forward loss_fn r
                (optstate := optstate) (schedstate := schedstate)).
Local Abbreviation update_and_accumulate :=
  (update_and_accumulate item acc backward_step (schedstate := schedstate)).
Local Abbreviation checkpoint_decision :=
  (checkpoint_decision (params := params) (optstate := optstate) (schedstate := schedstate)
                       summary_save_ok checkpoint_save_ok).
Local Abbreviation epoch_end :=
  (epoch_end item forward loss_fn acc scheduler_step val_dl
             summary_save_ok checkpoint_save_ok).
Local Abbreviation run_epoch :=
  (run_epoch fzero fone fadd fsub fmul fdiv fsqrt of_nat item forward loss_fn acc
             backward_step scheduler_step r summary_step tr_dl len_tr_dl val_dl
             summary_save_ok checkpoint_save_ok).
Local Abbreviation main :=
  (main fzero fone fadd fsub fmul fdiv fsqrt of_nat item forward loss_fn acc
        backward_step scheduler_step r epochs summary_step tr_dl len_tr_dl val_dl
        summary_save_ok checkpoint_save_ok).
Local Abbreviation global_step := (global_step len_tr_dl).

(** *** Loops *)

(** A relation between the state before and the state a loop stops in
    holds when it is reflexive, transitive and kept by the body. *)
Lemma for_each_related {A : Type} (Rel : state -> state -> Prop)
      (body : state -> A -> result) :
  (forall st, Rel st st) ->
  (forall st1 st2 st3, Rel st1 st2 -> Rel st2 st3 -> Rel st1 st3) ->
  (forall st a, Rel st (final_state (body st a))) ->
  forall l st, Rel st (final_state (for_each body l st)).
Proof.
  intros Hrefl Htrans Hbody. induction l as [|a l IH]; intros st.
  - apply Hrefl.
  - cbn [for_each]. specialize (Hbody st a).
    destruct (body st a) as [st1 | e st1]; cbn [bind final_state] in *.
    + eapply Htrans; [exact Hbody | apply IH].
    + exact Hbody.
Qed.

Lemma for_each_raised {A : Type} (body : state -> A -> result)
      (a : A) (l : list A) (st st' : state) (e : exn) :
  body st a = Raised e st' -> for_each body (a :: l) st = Raised e st'.
Proof. intros H. cbn [for_each]. now rewrite H. Qed.

(** *** [evaluate] *)

Lemma evaluate_loss_only (st : state) :
  evaluate st val_dl [("loss"%string, loss_fn)]
  = ([("loss"%string, metric_mean (model_params st) val_dl loss_fn)],
     emit (EvEvaluate _ _ ["loss"%string]) (set_training false st)).
Proof. reflexivity. Qed.

Lemma evaluate_loss_acc (st : state) :
  evaluate st val_dl [("loss"%string, loss_fn); ("acc"%string, acc)]
  = ([("loss"%string, metric_mean (model_params st) val_dl loss_fn);
      ("acc"%string, metric_mean (model_params st) val_dl acc)],
     emit (EvEvaluate _ _ ["loss"%string; "acc"%string]) (set_training false st)).
Proof. reflexivity. Qed.

(** *** The tracker *)

Lemma checkpoint_decision_tracker (epoch : nat) (trs vs : dict float) (v : float) (st : state) :
  let st' := final_state (checkpoint_decision epoch trs vs v st) in
  best_val_loss st' = best_val_loss st \/
  (PrimFloat.ltb v (best_val_loss st) = true /\ best_val_loss st' = v).
Proof.
  unfold Train.checkpoint_decision.
  destruct (PrimFloat.ltb v (best_val_loss st)) eqn:E; [| now left].
  destruct (summary_save_ok epoch); [| now left].
  destruct (checkpoint_save_ok epoch); [now right | now left].
Qed.

Lemma update_keeps_tracker (st : state) (x : input) (y : label) (sc : score) (l : F) :
  best_val_loss (update_and_accumulate st x y sc l) = best_val_loss st.
Proof.
  unfold Train.update_and_accumulate. now destruct (backward_step _ _ _ _ _).
Qed.

Lemma update_keeps_log (st : state) (x : input) (y : label) (sc : score) (l : F) :
  log (update_and_accumulate st x y sc l) = log st.
Proof.
  unfold Train.update_and_accumulate. now destruct (backward_step _ _ _ _ _).
Qed.

Lemma update_tr_loss (st : state) (x : input) (y : label) (sc : score) (l : F) :
  tr_loss (update_and_accumulate st x y sc l) = PrimFloat.add (tr_loss st) (item l).
Proof.
  unfold Train.update_and_accumulate. now destruct (backward_step _ _ _ _ _).
Qed.

Lemma update_model_params (st : state) (x : input) (y : label) (sc : score) (l : F) :
  model_params (update_and_accumulate st x y sc l)
  = fst (backward_step (training st) (model_params st) (opt_state st) x y).
Proof.
  unfold Train.update_and_accumulate. now destruct (backward_step _ _ _ _ _).
Qed.

Lemma train_step_tracker (epoch : nat) (st : state) (smb : nat * minibatch input label) :
  best_val_loss (final_state (train_step epoch st smb)) = best_val_loss st.
Proof.
  unfold Train.train_step.
  destruct (Train.forward_loss _ _ _ _ _ _ _ _ _ _ _ _ _ _) as [[sc mb_loss]|]; [| reflexivity].
  pose proof (update_keeps_tracker (set_step (fst smb) st) (fst (snd smb)) (snd (snd smb))
                sc mb_loss) as Hu.
  destruct (summary_step =? 0)%Z; [exact Hu |].
  destruct (_ mod _ =? 0)%Z; exact Hu.
Qed.

Lemma train_loop_tracker (epoch : nat) (l : list (nat * minibatch input label)) (st : state) :
  best_val_loss (final_state (for_each (train_step epoch) l st)) = best_val_loss st.
Proof.
  apply (for_each_related (fun a b => best_val_loss b = best_val_loss a)).
  - reflexivity.
  - intros ? ? ? H1 H2. now rewrite H2.
  - intros. apply train_step_tracker.
Qed.

(** The validation loss the [else] block works with: the mean over the
    validation batches of the cross-entropy alone. *)
Lemma epoch_end_tracker (epoch : nat) (st : state) :
  let st' := final_state (epoch_end epoch st) in
  let v := metric_mean (model_params st) val_dl loss_fn in
  model_params st' = model_params st /\
  (best_val_loss st' = best_val_loss st \/
   (PrimFloat.ltb v (best_val_loss st) = true /\ best_val_loss st' = v)).
Proof.
  unfold Train.epoch_end.
  destruct (step st) as [s|]; [| now split; [| left]].
  rewrite evaluate_loss_acc. cbn [lookup String.eqb Ascii.eqb Bool.eqb].
  cbn [sched_state opt_state emit set_training set_sums].
  destruct (scheduler_step _ _ _) as [s' o'].
  match goal with
  | |- context [Train.checkpoint_decision _ _ ?e ?t ?vs ?v ?s0] =>
      pose proof (checkpoint_decision_tracker e t vs v s0) as H;
      assert (Hp : model_params (final_state (checkpoint_decision e t vs v s0))
                   = model_params s0)
  end.
  { unfold Train.checkpoint_decision.
    destruct (PrimFloat.ltb _ _); [| reflexivity].
    destruct (summary_save_ok epoch); [| reflexivity].
    destruct (checkpoint_save_ok epoch); reflexivity. }
  cbn zeta in *. split; [exact Hp | exact H].
Qed.

(** C3 (amended). The tracker starts at the finite sentinel 1e+10.  Over
    one epoch it either keeps its value or takes the validation loss of
    that epoch, and it takes it only when that loss is strictly lower
    than the value the tracker had. *)
Theorem tracker_starts_at_sentinel_and_only_decreases :
  (forall (p0 : params) (o0 : optstate) (s0 : schedstate),
      best_val_loss (init_state p0 o0 s0) = 1e10%float) /\
  (forall (st : state) (epoch : nat),
      let st' := final_state (run_epoch st epoch) in
      let v := metric_mean (model_params st') val_dl loss_fn in
      best_val_loss st' = best_val_loss st \/
      (PrimFloat.ltb v (best_val_loss st) = true /\ best_val_loss st' = v)).
Proof.
  split; [reflexivity |].
  intros st epoch. unfold Train.run_epoch.
  set (st0 := set_training true (set_sums 0%float 0%float st)).
  pose proof (train_loop_tracker epoch (enumerate (tr_dl epoch)) st0) as Hloop.
  destruct (for_each _ _ st0) as [st1 | e st1]; cbn [bind final_state] in *.
  - destruct (epoch_end_tracker epoch st1) as [Hp Hb]. cbn zeta in *.
    rewrite Hp. rewrite Hloop in Hb. exact Hb.
  - left. exact Hloop.
Qed.


(** C5. When the validation loss is not strictly below the tracker the
    decision returns the state it was given: no event is logged, and the
    tracker, the weights and the optimizer state are the same. *)
Theorem no_improvement_changes_nothing
        (epoch : nat) (trs vs : dict float) (v : float) (st : state) :
  PrimFloat.ltb v (best_val_loss st) = false ->
  checkpoint_decision epoch trs vs v st = Done st.
Proof. intros H. unfold Train.checkpoint_decision. now rewrite H. Qed.

(** C7 (amended). When the epoch improves on the tracker and the write of
    the summary or of the checkpoint fails, the decision raises; the
    tracker of the state at the raise is the old one, and the exception
    ends the run: no later epoch is executed. *)
Theorem failed_save_raises_before_tracker_update :
  (forall (epoch : nat) (trs vs : dict float) (v : float) (st : state),
      PrimFloat.ltb v (best_val_loss st) = true ->
      summary_save_ok epoch && checkpoint_save_ok epoch = false ->
      exists st',
        checkpoint_decision epoch trs vs v st = Raised OSError st' /\
        best_val_loss st' = best_val_loss st) /\
  (forall (st st' : state) (epoch : nat) (e : exn) (rest : list nat),
      run_epoch st epoch = Raised e st' ->
      for_each run_epoch (epoch :: rest) st = Raised e st').
Proof.
  split.
  - intros epoch trs vs v st Hlt Hio. unfold Train.checkpoint_decision. rewrite Hlt.
    destruct (summary_save_ok epoch); cbn [andb] in Hio.
    + rewrite Hio. eexists. split; reflexivity.
    + eexists. split; reflexivity.
  - intros st st' epoch e rest H. now apply for_each_raised.
Qed.

(** *** One iteration of the inner loop *)

Lemma train_step_run (epoch : nat) (st : state) (s : nat) (x : input) (y : label)
      (sc : score) (mb_loss : F) :
  forward_loss st x y = Some (sc, mb_loss) ->
  summary_step <> 0%Z ->
  let st1 := update_and_accumulate (set_step s st) x y sc mb_loss in
  train_step epoch st (s, (x, y)) =
  if (global_step epoch s mod summary_step =? 0)%Z then
    Done (set_training true
           (emit (EvAddScalars _ _ (PrimFloat.div (tr_loss st1) (float_of_nat (s + 1)))
                               (metric_mean (model_params st1) val_dl loss_fn)
                               (global_step epoch s))
              (emit (EvEvaluate _ _ ["loss"%string]) (set_training false st1))))
  else Done st1.
Proof.
  intros Hfl Hss. unfold Train.train_step. cbn [fst snd].
  change (Train.forward_loss fzero fone fadd fsub fmul fdiv fsqrt of_nat forward loss_fn r
            (set_step s st) x y) with (forward_loss st x y).
  rewrite Hfl.
  apply Z.eqb_neq in Hss. rewrite Hss.
  destruct (_ mod _ =? 0)%Z; [| reflexivity].
  rewrite evaluate_loss_only, lookup_head. reflexivity.
Qed.

(** C6 (amended). A batch whose total loss is NaN or infinite does not
    stop the run: the iteration completes, the optimizer step is taken,
    and the value is added to the running sum [tr_loss]. *)
Theorem non_finite_loss_is_accumulated
        (epoch : nat) (st : state) (s : nat) (x : input) (y : label)
        (sc : score) (mb_loss : F) :
  forward_loss st x y = Some (sc, mb_loss) ->
  is_finite (item mb_loss) = false ->
  summary_step <> 0%Z ->
  exists st',
    train_step epoch st (s, (x, y)) = Done st' /\
    tr_loss st' = PrimFloat.add (tr_loss st) (item mb_loss) /\
    model_params st'
    = fst (backward_step (training st) (model_params st) (opt_state st) x y).
Proof.
  intros Hfl _ Hss. rewrite (train_step_run epoch st s x y Hfl Hss).
  cbv zeta. destruct (_ mod _ =? 0)%Z; eexists; (split; [reflexivity |]);
    cbn [tr_loss model_params set_training emit];
    now rewrite update_tr_loss, update_model_params.
Qed.

Lemma update_keeps_training (st : state) (x : input) (y : label) (sc : score) (l : F) :
  training (update_and_accumulate st x y sc l) = training st.
Proof.
  unfold Train.update_and_accumulate. now destruct (backward_step _ _ _ _ _).
Qed.

Lemma train_step_keeps_training_mode (epoch : nat) (st st' : state)
      (smb : nat * minibatch input label) :
  training st = true -> train_step epoch st smb = Done st' -> training st' = true.
Proof.
  destruct smb as [s [x y]]. intros Hmode H.
  change (train_step epoch st (s, (x, y)) = Done st') in H.
  destruct (forward_loss st x y) as [[sc mb_loss]|] eqn:Hfl.
  - destruct (Z.eq_dec summary_step 0) as [Hz | Hnz].
    + unfold Train.train_step in H. cbn [fst snd] in H.
      change (Train.forward_loss fzero fone fadd fsub fmul fdiv fsqrt of_nat forward loss_fn r
                (set_step s st) x y) with (forward_loss st x y) in H.
      rewrite Hfl, Hz in H. discriminate.
    + rewrite (train_step_run epoch st s x y Hfl Hnz) in H. cbv zeta in H.
      destruct (_ mod _ =? 0)%Z; injection H as <-.
      * reflexivity.
      * now rewrite update_keeps_training.
  - unfold Train.train_step in H. cbn [fst snd] in H.
    change (Train.forward_loss fzero fone fadd fsub fmul fdiv fsqrt of_nat forward loss_fn r
              (set_step s st) x y) with (forward_loss st x y) in H.
    rewrite Hfl in H. discriminate.
Qed.

(** C8. When the global step, epoch * len(tr_dl) + step, is a multiple of
    [summary_step], the iteration runs [evaluate] on the validation set
    with the loss as its only metric, emits the pair of the running
    training loss and that validation loss at the global step, and ends
    with the model in training mode, which is the state the next
    iteration starts from.  An iteration that starts in training mode
    ends in training mode, so every training step of an epoch runs in it. *)
Theorem periodic_validation_restores_training_mode :
  (forall (epoch : nat) (st : state) (s : nat) (x : input) (y : label)
          (sc : score) (mb_loss : F),
      forward_loss st x y = Some (sc, mb_loss) ->
      summary_step <> 0%Z ->
      (global_step epoch s mod summary_step = 0)%Z ->
      exists st',
        train_step epoch st (s, (x, y)) = Done st' /\
        log st' = log st ++
          [EvEvaluate _ _ ["loss"%string];
           EvAddScalars _ _ (PrimFloat.div (tr_loss st') (float_of_nat (s + 1)))
                        (metric_mean (model_params st') val_dl loss_fn)
                        (global_step epoch s)] /\
        training st' = true /\
        forall (rest : list (nat * minibatch input label)),
          for_each (train_step epoch) ((s, (x, y)) :: rest) st
          = for_each (train_step epoch) rest st') /\
  (forall (epoch : nat) (st st' : state) (smb : nat * minibatch input label),
      training st = true -> train_step epoch st smb = Done st' -> training st' = true).
Proof.
  split; [| exact train_step_keeps_training_mode].
  intros epoch st s x y sc mb_loss Hfl Hss Hmod.
  pose proof (train_step_run epoch st s x y Hfl Hss) as H.
  cbv zeta in H. apply Z.eqb_eq in Hmod. rewrite Hmod in H.
  eexists. split; [exact H |]. split; [| split].
  - cbn [log emit set_training tr_loss model_params].
    now rewrite update_keeps_log, <- app_assoc.
  - reflexivity.
  - intros rest. cbn [for_each]. now rewrite H.
Qed.

(** *** An empty loader *)

Lemma run_epoch_unbound_step (st : state) (epoch : nat) :
  tr_dl epoch = [] -> step st = None ->
  run_epoch st epoch
  = Raised UnboundLocalError (set_training true (set_sums 0%float 0%float st)).
Proof.
  intros Hdl Hstep. unfold Train.run_epoch. rewrite Hdl.
  cbn [enumerate length seq combine for_each bind].
  unfold Train.epoch_end. cbn [step set_training set_sums]. now rewrite Hstep.
Qed.

(** C9. An epoch in which the loader yields no batch reaches the [else]
    block, and with [step] never bound the block raises an
    [UnboundLocalError] on reading it, before anything is reported.  The
    loader yields the same number of batches in every epoch, so if that
    number is zero in an epoch of the run, this happens in the first
    epoch and [main] ends with the exception and an empty log. *)
Theorem empty_loader_raises_unbound_step :
  (forall (st : state) (epoch : nat),
      tr_dl epoch = [] -> step st = None ->
      exists st',
        run_epoch st epoch = Raised UnboundLocalError st' /\ log st' = log st) /\
  (forall (p0 : params) (o0 : optstate) (s0 : schedstate) (e0 : nat),
      (forall e, length (tr_dl e) = len_tr_dl) ->
      (e0 < Z.to_nat epochs)%nat ->
      tr_dl e0 = [] ->
      exists st,
        main p0 o0 s0 = Raised UnboundLocalError st /\
        step st = None /\ log st = []).
Proof.
  split.
  - intros st epoch Hdl Hstep. eexists. split.
    + now apply run_epoch_unbound_step.
    + reflexivity.
  - intros p0 o0 s0 e0 Hlen He0 Hempty.
    assert (H0 : tr_dl 0%nat = []).
    { apply length_zero_iff_nil. rewrite Hlen, <- (Hlen e0), Hempty. reflexivity. }
    unfold Train.main. destruct (Z.to_nat epochs) as [|n]; [lia |].
    cbn [seq]. eexists. split.
    + apply for_each_raised. now apply run_epoch_unbound_step.
    + split; reflexivity.
Qed.

(** *** What the two losses are made of *)

Lemma forward_loss_some (st : state) (x : input) (y : label) (sc : score) (l : F) :
  forward_loss st x y = Some (sc, l) ->
  exists reg,
    regularize (snd (forward (model_params st) (training st) x)) r = Some reg /\
    sc = fst (forward (model_params st) (training st) x) /\
    l = fadd (loss_fn sc y) reg.
Proof.
  unfold Train.forward_loss.
  destruct (forward _ _ x) as [sc0 attn]. cbn [fst snd].
  destruct (regularize attn r) as [reg|]; [| discriminate].
  intros H. injection H as <- <-. now exists reg.
Qed.

Lemma train_step_done (epoch : nat) (st st' : state) (s : nat) (x : input) (y : label) :
  train_step epoch st (s, (x, y)) = Done st' ->
  exists sc mb_loss,
    forward_loss st x y = Some (sc, mb_loss) /\
    tr_loss st' = PrimFloat.add (tr_loss st) (item mb_loss) /\
    (log st' = log st \/
     log st' = log st ++
       [EvEvaluate _ _ ["loss"%string];
        EvAddScalars _ _ (PrimFloat.div (tr_loss st') (float_of_nat (s + 1)))
                     (metric_mean (model_params st') val_dl loss_fn)
                     (global_step epoch s)]).
Proof.
  intros H.
  destruct (forward_loss st x y) as [[sc mb_loss]|] eqn:Hfl.
  - destruct (Z.eq_dec summary_step 0) as [Hz | Hnz].
    + unfold Train.train_step in H. cbn [fst snd] in H.
      change (Train.forward_loss fzero fone fadd fsub fmul fdiv fsqrt of_nat forward loss_fn r
                (set_step s st) x y) with (forward_loss st x y) in H.
      rewrite Hfl, Hz in H. discriminate.
    + rewrite (train_step_run epoch st s x y Hfl Hnz) in H. cbv zeta in H.
      exists sc, mb_loss. split; [reflexivity |].
      destruct (_ mod _ =? 0)%Z; injection H as <-;
        cbn [tr_loss log model_params set_training emit];
        rewrite update_tr_loss, update_keeps_log.
      * split; [reflexivity |]. right. now rewrite <- app_assoc.
      * split; [reflexivity |]. now left.
  - unfold Train.train_step in H. cbn [fst snd] in H.
    change (Train.forward_loss fzero fone fadd fsub fmul fdiv fsqrt of_nat forward loss_fn r
              (set_step s st) x y) with (forward_loss st x y) in H.
    rewrite Hfl in H. discriminate.
Qed.

(** C10. Every batch adds its cross-entropy plus the penalty to
    [tr_loss].  The validation loss is the mean over the validation
    batches of the cross-entropy alone, both where the loop emits the
    train/validation pair and in the [else] block, where it is the value
    given to the scheduler and to the checkpoint decision, next to the
    averaged [tr_loss] in the epoch summary. *)
Theorem train_loss_has_penalty_val_loss_has_not :
  (forall (epoch : nat) (st st' : state) (s : nat) (x : input) (y : label),
      train_step epoch st (s, (x, y)) = Done st' ->
      exists reg,
        regularize (snd (forward (model_params st) (training st) x)) r = Some reg /\
        tr_loss st'
        = PrimFloat.add (tr_loss st)
            (item (fadd (loss_fn (fst (forward (model_params st) (training st) x)) y) reg)) /\
        (log st' = log st \/
         log st' = log st ++
           [EvEvaluate _ _ ["loss"%string];
            EvAddScalars _ _ (PrimFloat.div (tr_loss st') (float_of_nat (s + 1)))
                         (metric_mean (model_params st') val_dl loss_fn)
                         (global_step epoch s)])) /\
  (forall (p : params) (dl : list (minibatch input label)),
      metric_mean p dl loss_fn
      = PrimFloat.div
          (fold_left (fun sum mb =>
                        PrimFloat.add sum (item (loss_fn (fst (forward p false (fst mb))) (snd mb))))
                     dl 0%float)
          (float_of_nat (length dl))) /\
  (forall (epoch : nat) (st : state) (s : nat),
      step st = Some s ->
      let trl := PrimFloat.div (tr_loss st) (float_of_nat (s + 1)) in
      let tra := PrimFloat.div (tr_acc st) (float_of_nat (s + 1)) in
      let vl := metric_mean (model_params st) val_dl loss_fn in
      let va := metric_mean (model_params st) val_dl acc in
      let so := scheduler_step (sched_state st) (opt_state st) vl in
      epoch_end epoch st
      = checkpoint_decision epoch
          [("loss"%string, trl); ("acc"%string, tra)]
          [("loss"%string, vl); ("acc"%string, va)] vl
          (emit (EvWrite _ _ (epoch + 1) trl vl tra va)
             (set_sched (fst so) (snd so)
                (emit (EvEvaluate _ _ ["loss"%string; "acc"%string])
                   (set_training false (set_sums trl tra st)))))).
Proof.
  split; [| split].
  - intros epoch st st' s x y H.
    destruct (train_step_done epoch st s x y H) as (sc & l & Hfl & Htr & Hlog).
    destruct (forward_loss_some st x y Hfl) as (reg & Hreg & -> & ->).
    exists reg. now repeat split.
  - reflexivity.
  - intros epoch st s Hs. cbv zeta. unfold Train.epoch_end. rewrite Hs.
    rewrite evaluate_loss_acc. cbn [lookup String.eqb Ascii.eqb Bool.eqb].
    cbn [sched_state opt_state emit set_training set_sums tr_loss tr_acc].
    destruct (scheduler_step _ _ _) as [s' o']. reflexivity.
Qed.

(* ------------------------------------------------------------------ *)
(** *** Further facts about the run *)

Local Abbreviation is_write := (@Trace.is_write params optstate).
Local Abbreviation is_summary_save := (@Trace.is_summary_save params optstate).
Local Abbreviation is_periodic := (@Trace.is_periodic params optstate).
Local Abbreviation count_writes := (@Trace.count_writes params optstate).
Local Abbreviation count_summary_saves := (@Trace.count_summary_saves params optstate).
Local Abbreviation scalar_steps := (@Trace.scalar_steps params optstate).
Local Abbreviation last_saved_summary := (@Trace.last_saved_summary params optstate).
Local Abbreviation loop_related := (@Trace.loop_related params optstate schedstate).
Local Abbreviation tracker_matches_summary :=
  (@Trace.tracker_matches_summary params optstate schedstate).
Local Abbreviation completed_counts := (@Trace.completed_counts params optstate schedstate).
Local Abbreviation steps_below := (@Trace.steps_below params optstate schedstate).
Local Abbreviation raised_counts := (@Trace.raised_counts params optstate schedstate).
Local Abbreviation count_saves := (@count_saves params optstate).

(** Only NaN differs from itself. *)
Lemma SFeqb_refl_false (s : spec_float) : SFeqb s s = false -> s = S754_nan.
Proof.
  unfold SFeqb. destruct s as [b | b | | b m e]; cbn [SFcompare].
  - discriminate.
  - destruct b; discriminate.
  - reflexivity.
  - rewrite Z.compare_refl.
    change (Pos.compare_cont Eq m m) with (Pos.compare m m).
    rewrite Pos.compare_refl. destruct b; discriminate.
Qed.

Lemma ltb_nan_l (v b : float) : PrimFloat.is_nan v = true -> PrimFloat.ltb v b = false.
Proof.
  unfold PrimFloat.is_nan. intros H. apply negb_true_iff in H.
  rewrite FloatAxioms.eqb_spec in H. apply SFeqb_refl_false in H.
  rewrite ltb_spec, H. reflexivity.
Qed.

Lemma ltb_true_not_nan (v b : float) : PrimFloat.ltb v b = true -> PrimFloat.is_nan v = false.
Proof.
  intros H. destruct (PrimFloat.is_nan v) eqn:E; [| reflexivity].
  rewrite (ltb_nan_l v b E) in H. discriminate.
Qed.

(** A property kept by the iterations that complete holds when the loop
    completes; [Q] is what is known of the state an iteration raises in. *)
Lemma for_each_outcome {A : Type} (P Q : state -> Prop) (body : state -> A -> result) :
  (forall st a, P st ->
     match body st a with Done st' => P st' | Raised _ st' => Q st' end) ->
  forall l st, P st ->
    match for_each body l st with Done st' => P st' | Raised _ st' => Q st' end.
Proof.
  intros Hbody. induction l as [|a l IH]; intros st HP.
  - exact HP.
  - cbn [for_each]. specialize (Hbody st a HP).
    destruct (body st a) as [st1 | e st1]; cbn [bind].
    + now apply IH.
    + exact Hbody.
Qed.

(** What an iteration appends to the log, whatever its outcome. *)
Lemma train_step_log (epoch : nat) (st : state) (s : nat) (x : input) (y : label) :
  let st' := final_state (train_step epoch st (s, (x, y))) in
  log st' = log st \/
  exists t v, log st' = log st ++ [EvEvaluate _ _ ["loss"%string];
                                   EvAddScalars _ _ t v (global_step epoch s)].
Proof.
  cbv zeta. unfold Train.train_step. cbn [fst snd].
  destruct (Train.forward_loss _ _ _ _ _ _ _ _ _ _ _ _ _ _) as [[sc mb_loss]|];
    [| now left].
  destruct (summary_step =? 0)%Z;
    [left; cbn [final_state]; now rewrite update_keeps_log |].
  destruct (_ mod _ =? 0)%Z.
  - rewrite evaluate_loss_only, lookup_head. right.
    cbn [final_state log emit set_training]. rewrite update_keeps_log.
    do 2 eexists. cbn [log set_step]. now rewrite <- app_assoc.
  - left. cbn [final_state]. now rewrite update_keeps_log.
Qed.

Lemma train_loop_related (epoch : nat) (l : list (nat * minibatch input label)) (st : state) :
  loop_related st (final_state (for_each (train_step epoch) l st)).
Proof.
  apply (for_each_related loop_related).
  - intros st0. split; [reflexivity |]. exists []. now rewrite app_nil_r.
  - intros st1 st2 st3 [Hb1 (l1 & Hl1 & Hp1)] [Hb2 (l2 & Hl2 & Hp2)]. split.
    + now rewrite Hb2.
    + exists (l1 ++ l2). rewrite Hl2, Hl1, app_assoc. split; [reflexivity |].
      apply Forall_app. now split.
  - intros st0 [s [x y]]. split; [apply train_step_tracker |].
    destruct (train_step_log epoch st0 s x y) as [H | (t & v & H)].
    + exists []. rewrite app_nil_r. now split.
    + eexists. split; [exact H |]. repeat constructor.
Qed.

(** The [else] block with [step] bound, up to the checkpoint decision. *)
Lemma epoch_end_unfold (epoch : nat) (st : state) (s : nat) :
  step st = Some s ->
  let trl := PrimFloat.div (tr_loss st) (float_of_nat (s + 1)) in
  let tra := PrimFloat.div (tr_acc st) (float_of_nat (s + 1)) in
  let vl := metric_mean (model_params st) val_dl loss_fn in
  let va := metric_mean (model_params st) val_dl acc in
  let so := scheduler_step (sched_state st) (opt_state st) vl in
  epoch_end epoch st
  = checkpoint_decision epoch
      [("loss"%string, trl); ("acc"%string, tra)]
      [("loss"%string, vl); ("acc"%string, va)] vl
      (emit (EvWrite _ _ (epoch + 1) trl vl tra va)
         (set_sched (fst so) (snd so)
            (emit (EvEvaluate _ _ ["loss"%string; "acc"%string])
               (set_training false (set_sums trl tra st))))).
Proof.
  intros Hs. cbv zeta. unfold Train.epoch_end. rewrite Hs.
  rewrite evaluate_loss_acc. cbn [lookup String.eqb Ascii.eqb Bool.eqb].
  cbn [sched_state opt_state emit set_training set_sums tr_loss tr_acc].
  destruct (scheduler_step _ _ _) as [s' o']. reflexivity.
Qed.

Lemma last_saved_summary_app (l1 l2 : list (event params optstate)) :
  last_saved_summary (l1 ++ l2)
  = match last_saved_summary l2 with
    | Some d => Some d
    | None => last_saved_summary l1
    end.
Proof.
  induction l1 as [|ev l1 IH]; cbn [app Trace.last_saved_summary].
  - now destruct (last_saved_summary l2).
  - rewrite IH. now destruct (last_saved_summary l2).
Qed.

Lemma last_saved_summary_periodic (l : list (event params optstate)) :
  Forall (fun ev => is_periodic ev = true) l -> last_saved_summary l = None.
Proof.
  induction 1 as [|ev l Hev _ IH]; [reflexivity |].
  cbn [Trace.last_saved_summary]. rewrite IH. now destruct ev.
Qed.

Lemma loop_keeps_tracker_matches (st st' : state) :
  loop_related st st' -> tracker_matches_summary st -> tracker_matches_summary st'.
Proof.
  intros [Hb (l & Hl & Hp)]. unfold Trace.tracker_matches_summary.
  now rewrite Hl, last_saved_summary_app, (last_saved_summary_periodic Hp), Hb.
Qed.

Lemma run_epoch_tracker_matches (st : state) (epoch : nat) :
  tracker_matches_summary st ->
  match run_epoch st epoch with
  | Done st' => tracker_matches_summary st'
  | Raised _ _ => True
  end.
Proof.
  intros Hinv. unfold Train.run_epoch.
  set (st0 := set_training true (set_sums 0%float 0%float st)).
  assert (H0 : tracker_matches_summary st0) by exact Hinv.
  pose proof (train_loop_related epoch (enumerate (tr_dl epoch)) st0) as Hrel.
  destruct (for_each _ _ st0) as [st1 | e st1]; cbn [bind final_state] in *; [| exact I].
  pose proof (loop_keeps_tracker_matches Hrel H0) as H1.
  destruct (step st1) as [s|] eqn:Hs.
  - rewrite (epoch_end_unfold epoch st1 Hs). cbv zeta.
    unfold Train.checkpoint_decision, Trace.tracker_matches_summary in *.
    cbn [best_val_loss log emit set_sched set_training set_sums set_best_val_loss
         model_params opt_state].
    destruct (PrimFloat.ltb _ _).
    + destruct (summary_save_ok epoch); [| exact I].
      destruct (checkpoint_save_ok epoch); [| exact I].
      cbn [best_val_loss log emit set_best_val_loss].
      rewrite !last_saved_summary_app. cbn [Trace.last_saved_summary].
      apply lookup_head.
    + cbn [best_val_loss log emit set_sched set_training set_sums].
      rewrite !last_saved_summary_app. cbn [Trace.last_saved_summary]. exact H1.
  - unfold Train.epoch_end. rewrite Hs. exact I.
Qed.

(** X6. A NaN validation loss is never the best: the decision returns the
    state unchanged, nothing is saved.  Accordingly the tracker is not NaN
    in the state [main] ends in, whether it completes or raises. *)
Theorem nan_validation_loss_is_never_best :
  (forall (epoch : nat) (trs vs : dict float) (v : float) (st : state),
      PrimFloat.is_nan v = true ->
      checkpoint_decision epoch trs vs v st = Done st) /\
  (forall (p0 : params) (o0 : optstate) (s0 : schedstate),
      PrimFloat.is_nan (best_val_loss (final_state (main p0 o0 s0))) = false).
Proof.
  split.
  - intros epoch trs vs v st Hnan. unfold Train.checkpoint_decision.
    now rewrite (ltb_nan_l v (best_val_loss st) Hnan).
  - intros p0 o0 s0. unfold Train.main.
    apply (for_each_related
             (fun a b => PrimFloat.is_nan (best_val_loss a) = false ->
                         PrimFloat.is_nan (best_val_loss b) = false));
      [auto | auto | | reflexivity].
    intros st epoch Hst. unfold Train.run_epoch.
    set (st0 := set_training true (set_sums 0%float 0%float st)).
    pose proof (train_loop_tracker epoch (enumerate (tr_dl epoch)) st0) as Hloop.
    destruct (for_each _ _ st0) as [st1 | e st1]; cbn [bind final_state] in *.
    + destruct (epoch_end_tracker epoch st1) as [_ [Hb | [Hlt Hb]]]; cbv zeta in *.
      * now rewrite Hb, Hloop.
      * rewrite Hb. now apply ltb_true_not_nan in Hlt.
    + now rewrite Hloop.
Qed.

(** X7. When [main] completes, the tracker is the validation loss of the
    last summary it saved, or the sentinel 1e+10 when it saved none. *)
Theorem completed_run_tracker_matches_last_summary
        (p0 : params) (o0 : optstate) (s0 : schedstate) (st : state) :
  main p0 o0 s0 = Done st ->
  match last_saved_summary (log st) with
  | None => best_val_loss st = 1e10%float
  | Some vs => lookup "loss"%string vs = Some (best_val_loss st)
  end.
Proof.
  intros Hrun. unfold Train.main in Hrun.
  pose proof (for_each_outcome tracker_matches_summary (fun _ => True) run_epoch
                run_epoch_tracker_matches (seq 0 (Z.to_nat epochs))
                (init_state p0 o0 s0) eq_refl) as H.
  rewrite Hrun in H. exact H.
Qed.

(** *** Counting the reports and the saves *)

Lemma count_app (f : event params optstate -> bool) (l1 l2 : list (event params optstate)) :
  length (filter f (l1 ++ l2)) = (length (filter f l1) + length (filter f l2))%nat.
Proof. now rewrite filter_app, length_app. Qed.

Lemma periodic_not_counted (f : event params optstate -> bool) (l : list (event params optstate)) :
  (forall ev, is_periodic ev = true -> f ev = false) ->
  Forall (fun ev => is_periodic ev = true) l ->
  length (filter f l) = 0%nat.
Proof.
  intros Hf. induction 1 as [|ev l Hev _ IH]; [reflexivity |].
  cbn [filter]. now rewrite (Hf ev Hev).
Qed.

Lemma loop_keeps_counts (st st' : state) :
  loop_related st st' ->
  count_writes (log st') = count_writes (log st) /\
  count_summary_saves (log st') = count_summary_saves (log st) /\
  count_saves (log st') = count_saves (log st).
Proof.
  intros [_ (l & Hl & Hp)].
  unfold Trace.count_writes, Trace.count_summary_saves, Train.count_saves.
  rewrite Hl, !count_app.
  assert (Q1 : forall ev, is_periodic ev = true -> is_write ev = false)
    by (intros ev Hev; destruct ev; cbn in *; congruence).
  assert (Q2 : forall ev, is_periodic ev = true -> is_summary_save ev = false)
    by (intros ev Hev; destruct ev; cbn in *; congruence).
  assert (Q3 : forall ev, is_periodic ev = true ->
                          @is_checkpoint_save params optstate ev = false)
    by (intros ev Hev; destruct ev; cbn in *; congruence).
  rewrite (periodic_not_counted _ Q1 Hp), (periodic_not_counted _ Q2 Hp),
    (periodic_not_counted _ Q3 Hp).
  now rewrite !Nat.add_0_r.
Qed.

Lemma run_epoch_counts (n : nat) (st : state) (epoch : nat) :
  completed_counts n st ->
  match run_epoch st epoch with
  | Done st' => completed_counts (S n) st'
  | Raised _ st' => raised_counts (S n) st'
  end.
Proof.
  intros (Hw & Hs & Hc). unfold Train.run_epoch.
  set (st0 := set_training true (set_sums 0%float 0%float st)).
  pose proof (train_loop_related epoch (enumerate (tr_dl epoch)) st0) as Hrel.
  apply loop_keeps_counts in Hrel. destruct Hrel as (Hw1 & Hs1 & Hc1).
  change (log st0) with (log st) in Hw1, Hs1, Hc1.
  destruct (for_each _ _ st0) as [st1 | e st1]; cbn [bind final_state] in *.
  - destruct (step st1) as [s|] eqn:Hstep.
    + rewrite (epoch_end_unfold epoch st1 Hstep). cbv zeta.
      unfold Train.checkpoint_decision.
      destruct (PrimFloat.ltb _ _);
        [destruct (summary_save_ok epoch); [destruct (checkpoint_save_ok epoch) |] |];
        unfold Trace.completed_counts, Trace.raised_counts,
          Trace.count_writes, Trace.count_summary_saves, Train.count_saves in *;
        cbn [log emit set_sched set_training set_sums set_best_val_loss];
        rewrite !count_app; cbn [filter Trace.is_write Trace.is_summary_save
                                 is_checkpoint_save length]; lia.
    + unfold Train.epoch_end. rewrite Hstep.
      unfold Trace.raised_counts. lia.
  - unfold Trace.raised_counts. lia.
Qed.

Lemma raised_counts_mono (n m : nat) (st : state) :
  (n <= m)%nat -> raised_counts n st -> raised_counts m st.
Proof. unfold Trace.raised_counts. lia. Qed.

Lemma epochs_counts (l : list nat) (n : nat) (st : state) :
  completed_counts n st ->
  match for_each run_epoch l st with
  | Done st' => completed_counts (n + length l) st'
  | Raised _ st' => raised_counts (n + length l) st'
  end.
Proof.
  revert n st. induction l as [|epoch l IH]; intros n st Hn.
  - cbn [for_each length]. now rewrite Nat.add_0_r.
  - cbn [for_each length]. pose proof (run_epoch_counts epoch Hn) as H1.
    destruct (run_epoch st epoch) as [st1 | e st1]; cbn [bind].
    + specialize (IH (S n) st1 H1).
      replace (n + S (length l))%nat with (S n + length l)%nat by lia. exact IH.
    + apply (raised_counts_mono (n := S n)); [lia | exact H1].
Qed.

Lemma init_counts (p0 : params) (o0 : optstate) (s0 : schedstate) :
  completed_counts 0 (init_state p0 o0 s0).
Proof. repeat split. cbn. lia. Qed.

(** X8. A run that completes has written exactly one epoch report per
    epoch, has saved as many checkpoints as summaries, and at most one of
    each per epoch. *)
Theorem completed_run_reports_every_epoch
        (p0 : params) (o0 : optstate) (s0 : schedstate) (st : state) :
  main p0 o0 s0 = Done st ->
  count_writes (log st) = Z.to_nat epochs /\
  count_summary_saves (log st) = count_saves (log st) /\
  (count_saves (log st) <= Z.to_nat epochs)%nat.
Proof.
  intros Hrun. unfold Train.main in Hrun.
  pose proof (epochs_counts (seq 0 (Z.to_nat epochs)) (init_counts p0 o0 s0)) as H.
  rewrite Hrun, length_seq in H. exact H.
Qed.

(** X9. Whether [main] completes or raises, a checkpoint has never been
    saved without its summary, at most one summary is without its
    checkpoint, and neither the reports nor the summaries outnumber the
    epochs. *)
Theorem checkpoint_never_without_summary
        (p0 : params) (o0 : optstate) (s0 : schedstate) :
  let st := final_state (main p0 o0 s0) in
  (count_saves (log st) <= count_summary_saves (log st))%nat /\
  (count_summary_saves (log st) <= count_saves (log st) + 1)%nat /\
  (count_summary_saves (log st) <= Z.to_nat epochs)%nat /\
  (count_writes (log st) <= Z.to_nat epochs)%nat.
Proof.
  cbv zeta. unfold Train.main.
  pose proof (epochs_counts (seq 0 (Z.to_nat epochs)) (init_counts p0 o0 s0)) as H.
  rewrite length_seq in H.
  destruct (for_each _ _ _) as [st | e st]; cbn [final_state].
  - destruct H as (Hw & Hs & Hc). lia.
  - unfold Trace.raised_counts in H. lia.
Qed.

(** *** The global steps of the scalar log *)

Lemma scalar_steps_app (l1 l2 : list (event params optstate)) :
  scalar_steps (l1 ++ l2) = scalar_steps l1 ++ scalar_steps l2.
Proof.
  induction l1 as [|ev l1 IH]; [reflexivity |].
  destruct ev; cbn [app Trace.scalar_steps]; now rewrite IH.
Qed.

Lemma strongly_sorted_snoc (l : list Z) (x : Z) :
  StronglySorted Z.lt l -> Forall (fun g => (g < x)%Z) l ->
  StronglySorted Z.lt (l ++ [x]).
Proof.
  induction 1 as [|a l Hl IH Ha]; intros Hx.
  - repeat constructor.
  - inversion Hx as [|? ? Hax Hlx]; subst. cbn [app]. constructor.
    + now apply IH.
    + apply Forall_app. split; [exact Ha | now constructor].
Qed.

Lemma steps_below_mono (b1 b2 : Z) (st : state) :
  (b1 <= b2)%Z -> steps_below b1 st -> steps_below b2 st.
Proof.
  intros Hle [Hs Hb]. split; [exact Hs |].
  eapply Forall_impl; [| exact Hb]. cbv beta. intros g Hg. lia.
Qed.

Lemma global_step_succ (epoch s : nat) :
  global_step epoch (S s) = (global_step epoch s + 1)%Z.
Proof. unfold Train.global_step. lia. Qed.

Lemma train_step_steps (epoch : nat) (st : state) (s : nat) (mb : minibatch input label) :
  steps_below (global_step epoch s) st ->
  steps_below (global_step epoch (S s)) (final_state (train_step epoch st (s, mb))).
Proof.
  destruct mb as [x y]. intros [Hs Hb].
  change (steps_below (global_step epoch (S s))
            (final_state (train_step epoch st (s, (x, y))))).
  rewrite global_step_succ.
  destruct (train_step_log epoch st s x y) as [H | (t & v & H)];
    unfold Trace.steps_below; rewrite H.
  - split; [exact Hs |].
    eapply Forall_impl; [| exact Hb]. cbv beta. intros g Hg. lia.
  - rewrite scalar_steps_app. cbn [Trace.scalar_steps]. split.
    + now apply strongly_sorted_snoc.
    + apply Forall_app. split.
      * eapply Forall_impl; [| exact Hb]. cbv beta. intros g Hg. lia.
      * repeat constructor. lia.
Qed.

Lemma train_loop_steps (epoch : nat) (l : list (minibatch input label)) :
  forall (k : nat) (st : state),
    steps_below (global_step epoch k) st ->
    steps_below (global_step epoch (k + length l))
      (final_state (for_each (train_step epoch) (combine (seq k (length l)) l) st)).
Proof.
  induction l as [|mb l IH]; intros k st Hst.
  - cbn [length seq combine for_each final_state]. now rewrite Nat.add_0_r.
  - cbn [length seq combine for_each].
    pose proof (@train_step_steps epoch st k mb Hst) as H1.
    destruct (train_step epoch st (k, mb)) as [st1 | e st1]; cbn [bind final_state] in *.
    + replace (k + S (length l))%nat with (S k + length l)%nat by lia.
      now apply IH.
    + apply (steps_below_mono (b1 := global_step epoch (S k))); [| exact H1].
      unfold Train.global_step. lia.
Qed.

Lemma epoch_end_steps (epoch : nat) (st : state) :
  scalar_steps (log (final_state (epoch_end epoch st))) = scalar_steps (log st).
Proof.
  destruct (step st) as [s|] eqn:Hs.
  - rewrite (epoch_end_unfold epoch st Hs). cbv zeta.
    unfold Train.checkpoint_decision.
    destruct (PrimFloat.ltb _ _);
      [destruct (summary_save_ok epoch); [destruct (checkpoint_save_ok epoch) |] |];
      cbn [final_state log emit set_sched set_training set_sums set_best_val_loss];
      rewrite !scalar_steps_app; cbn [Trace.scalar_steps]; now rewrite !app_nil_r.
  - unfold Train.epoch_end. now rewrite Hs.
Qed.

Lemma run_epoch_steps (st : state) (epoch : nat) :
  (length (tr_dl epoch) <= len_tr_dl)%nat ->
  steps_below (global_step epoch 0) st ->
  steps_below (global_step (S epoch) 0) (final_state (run_epoch st epoch)).
Proof.
  intros Hlen Hst. unfold Train.run_epoch, enumerate.
  set (st0 := set_training true (set_sums 0%float 0%float st)).
  pose proof (@train_loop_steps epoch (tr_dl epoch) 0%nat st0 Hst) as Hloop.
  assert (Hle : (global_step epoch (0 + length (tr_dl epoch)) <= global_step (S epoch) 0)%Z)
    by (unfold Train.global_step; nia).
  destruct (for_each _ _ st0) as [st1 | e st1]; cbn [bind final_state] in *.
  - apply (steps_below_mono Hle). destruct Hloop as [Hs Hb].
    unfold Trace.steps_below. now rewrite epoch_end_steps.
  - now apply (steps_below_mono Hle).
Qed.

Lemma epochs_steps :
  (forall e, (length (tr_dl e) <= len_tr_dl)%nat) ->
  forall (n k : nat) (st : state),
    steps_below (global_step k 0) st ->
    steps_below (global_step (k + n) 0) (final_state (for_each run_epoch (seq k n) st)).
Proof.
  intros Hlen. induction n as [|n IH]; intros k st Hst.
  - cbn [seq for_each final_state]. now rewrite Nat.add_0_r.
  - cbn [seq for_each].
    pose proof (@run_epoch_steps st k (Hlen k) Hst) as H1.
    destruct (run_epoch st k) as [st1 | e st1]; cbn [bind final_state] in *.
    + replace (k + S n)%nat with (S k + n)%nat by lia. now apply IH.
    + apply (steps_below_mono (b1 := global_step (S k) 0)); [| exact H1].
      unfold Train.global_step. nia.
Qed.

(** X10. When no epoch yields more batches than [len(tr_dl)], the global
    steps passed to [writer.add_scalars] over the run are strictly
    increasing: no step is logged twice or out of order, whether [main]
    completes or raises. *)
Theorem logged_global_steps_strictly_increase
        (p0 : params) (o0 : optstate) (s0 : schedstate) :
  (forall e, (length (tr_dl e) <= len_tr_dl)%nat) ->
  StronglySorted Z.lt (scalar_steps (log (final_state (main p0 o0 s0)))).
Proof.
  intros Hlen. unfold Train.main.
  apply (@epochs_steps Hlen (Z.to_nat epochs) 0%nat (init_state p0 o0 s0)).
  split; constructor.
Qed.

(** *** Errors of the first iteration *)

Lemma first_iteration_raises (p0 : params) (o0 : optstate) (s0 : schedstate)
      (x : input) (y : label) (rest : list (minibatch input label))
      (e : exn) (st' : state) :
  (0 < epochs)%Z ->
  tr_dl 0%nat = (x, y) :: rest ->
  train_step 0 (set_training true (set_sums 0%float 0%float (init_state p0 o0 s0)))
             (0%nat, (x, y)) = Raised e st' ->
  main p0 o0 s0 = Raised e st'.
Proof.
  intros Hep Hdl Hstep. unfold Train.main.
  destruct (Z.to_nat epochs) as [|n] eqn:En; [lia |].
  cbn [seq]. apply for_each_raised.
  unfold Train.run_epoch, enumerate. rewrite Hdl.
  cbn [length seq combine for_each].
  match goal with
  | |- bind (bind ?t _) _ = _ =>
      change t with (train_step 0 (set_training true (set_sums 0%float 0%float
                                     (init_state p0 o0 s0))) (0%nat, (x, y)))
  end.
  now rewrite Hstep.
Qed.

(** X11. With [summary_step = 0] the first iteration of the run takes its
    optimizer step, adds the loss to [tr_loss], and then raises
    [ZeroDivisionError] at the [%]: [main] ends there with updated weights
    and nothing logged. *)
Theorem zero_summary_step_raises_after_first_update
        (p0 : params) (o0 : optstate) (s0 : schedstate)
        (x : input) (y : label) (rest : list (minibatch input label))
        (sc : score) (mb_loss : F) :
  summary_step = 0%Z ->
  (0 < epochs)%Z ->
  tr_dl 0%nat = (x, y) :: rest ->
  forward_loss (init_state p0 o0 s0) x y = Some (sc, mb_loss) ->
  exists st,
    main p0 o0 s0 = Raised ZeroDivisionError st /\
    model_params st = fst (backward_step true p0 o0 x y) /\
    tr_loss st = PrimFloat.add 0 (item mb_loss) /\
    log st = [].
Proof.
  intros Hss Hep Hdl Hfl. eexists. split.
  - apply (@first_iteration_raises p0 o0 s0 x y rest _ _ Hep Hdl).
    unfold Train.train_step. cbn [fst snd].
    change (Train.forward_loss fzero fone fadd fsub fmul fdiv fsqrt of_nat forward loss_fn r
              (set_step 0 (set_training true (set_sums 0%float 0%float (init_state p0 o0 s0))))
              x y)
      with (forward_loss (init_state p0 o0 s0) x y).
    rewrite Hfl, Hss. reflexivity.
  - rewrite update_model_params, update_tr_loss, update_keeps_log. repeat split.
Qed.

(** X12. When the attention tensor of the first batch has a number of rows
    that differs from the configured [r], neither being 1, the first
    iteration raises [RuntimeError] inside [regularize]: [main] ends there
    with the weights and the optimizer state it started from and nothing
    logged. *)
Theorem incompatible_rows_raise_before_any_update
        (p0 : params) (o0 : optstate) (s0 : schedstate)
        (x : input) (y : label) (rest : list (minibatch input label)) :
  (0 < epochs)%Z ->
  tr_dl 0%nat = (x, y) :: rest ->
  Tensor.dim1 (snd (forward p0 true x)) <> r ->
  Tensor.dim1 (snd (forward p0 true x)) <> 1%nat ->
  r <> 1%nat ->
  exists st,
    main p0 o0 s0 = Raised RuntimeError st /\
    model_params st = p0 /\ opt_state st = o0 /\ log st = [].
Proof.
  intros Hep Hdl H1 H2 H3. eexists. split.
  - apply (@first_iteration_raises p0 o0 s0 x y rest _ _ Hep Hdl).
    unfold Train.train_step, Train.forward_loss.
    cbn [fst snd model_params training set_step set_training set_sums init_state].
    destruct (forward p0 true x) as [sc attn]. cbn [snd] in H1, H2.
    rewrite (TensorFacts.regularize_incompatible_rows _ _ _ _ _ _ _ _ _ H1 H2 H3).
    reflexivity.
  - repeat split.
Qed.

End Run.

(** *** Runs of the small instance *)

Lemma float_neq_by_ltb (x y z : float) :
  PrimFloat.ltb x z = true -> PrimFloat.ltb y z = false -> x <> y.
Proof. intros Hx Hy E. rewrite E, Hy in Hx. discriminate. Qed.

(** The tracker does not start at +infinity: it starts at 1e+10, and an
    epoch whose validation loss is 2e+10, below +infinity, neither updates
    it nor saves a checkpoint. *)
Lemma tracker_not_initialised_to_infinity :
  best_val_loss (init_state 0%nat tt tt) <> infinity /\
  exists st,
    Toy.main [0; 2e10]%float 1 500 (fun _ => [Toy.mb]) 1 [Toy.mb]
             (Toy.always true) (Toy.always true) = Done st /\
    PrimFloat.ltb 2e10 infinity = true /\
    In (EvWrite nat unit 1 0 2e10 1 1) (log st) /\
    best_val_loss st = 1e10%float /\
    count_saves (log st) = 0%nat.
Proof.
  split.
  - apply (@float_neq_by_ltb _ _ infinity); reflexivity.
  - eexists. split; [vm_compute; reflexivity |].
    split; [reflexivity |]. split; [| split; reflexivity].
    cbn [log]. do 3 right. left. reflexivity.
Qed.

(** Whole runs of three epochs with one training batch each: the epochs
    end with the validation losses 0.9, 0.7, 0.5 in the first run and
    0.5, 0.5, 0.6 in the second. *)
Example main_saves_follow_validation_losses :
  count_saves (log (final_state
    (Toy.main [0; 0.9; 0.7; 0.5]%float 3 500 (fun _ => [Toy.mb]) 1 [Toy.mb]
              (Toy.always true) (Toy.always true)))) = 3%nat /\
  count_saves (log (final_state
    (Toy.main [0; 0.5; 0.5; 0.6]%float 3 500 (fun _ => [Toy.mb]) 1 [Toy.mb]
              (Toy.always true) (Toy.always true)))) = 1%nat.
Proof. split; vm_compute; reflexivity. Qed.


Lemma no_improvement_changes_nothing_witness :
  PrimFloat.ltb 2e10 (best_val_loss Toy.start) = false /\
  checkpoint_decision (Toy.always true) (Toy.always true) 0
                      [] [("loss"%string, 2e10%float)] 2e10%float Toy.start
  = Done Toy.start.
Proof.
  split; [reflexivity |].
  apply (@no_improvement_changes_nothing nat unit unit (Toy.always true) (Toy.always true)
           0%nat [] [("loss"%string, 2e10%float)] 2e10%float Toy.start).
  reflexivity.
Defined.

(** The first batch of the epoch has a NaN loss; the run goes on through
    the second batch, reports the epoch and saves a checkpoint. *)
Lemma nan_batch_does_not_abort :
  Train.forward_loss 0%float 1%float PrimFloat.add PrimFloat.sub PrimFloat.mul PrimFloat.div
    PrimFloat.sqrt float_of_nat (Toy.forward) (Toy.loss_fn [nan; 0.9; 0.7]%float) 2
    Toy.start Toy.x_diverse tt = Some (0%nat, nan) /\
  is_finite nan = false /\
  exists st,
    Toy.main [nan; 0.9; 0.7]%float 1 500 (fun _ => [Toy.mb; Toy.mb]) 2 [Toy.mb]
             (Toy.always true) (Toy.always true) = Done st /\
    model_params st = 2%nat /\
    PrimFloat.is_nan (tr_loss st) = true /\
    In (EvWrite nat unit 1 nan 0.7 1 1) (log st) /\
    count_saves (log st) = 1%nat.
Proof.
  split; [vm_compute; reflexivity |]. split; [reflexivity |].
  eexists. split; [vm_compute; reflexivity |].
  split; [reflexivity |]. split; [reflexivity |]. split; [| reflexivity].
  cbn [log]. do 3 right. left. reflexivity.
Qed.

Lemma non_finite_loss_is_accumulated_witness :
  exists st',
    Toy.train_step [nan; 0.9; 0.7]%float 500 2 [Toy.mb] 0 Toy.start (0%nat, Toy.mb) = Done st' /\
    tr_loss st' = PrimFloat.add 0 nan /\
    model_params st' = 1%nat.
Proof.
  unfold Toy.train_step, Toy.mb.
  apply (@non_finite_loss_is_accumulated float 0%float 1%float PrimFloat.add PrimFloat.sub
           PrimFloat.mul PrimFloat.div PrimFloat.sqrt float_of_nat (fun x : float => x)
           nat unit unit (Tensor.tensor3 float) unit nat
           Toy.forward (Toy.loss_fn [nan; 0.9; 0.7]%float) Toy.acc Toy.backward_step
           2%nat 500%Z 2%nat [Toy.mb] 0%nat Toy.start 0%nat Toy.x_diverse tt 0%nat nan).
  - vm_compute. reflexivity.
  - reflexivity.
  - discriminate.
Defined.

(** The epoch improves on the tracker and the write of the checkpoint
    fails: the run ends with the exception, the tracker still at 1e+10. *)
Lemma failed_save_leaves_tracker :
  exists st,
    Toy.main [0; 0.9]%float 2 500 (fun _ => [Toy.mb]) 1 [Toy.mb]
             (Toy.always true) (Toy.always false) = Raised OSError st /\
    In (EvWrite nat unit 1 0 0.9 1 1) (log st) /\
    PrimFloat.ltb 0.9 1e10 = true /\
    best_val_loss st = 1e10%float /\
    best_val_loss st <> 0.9%float.
Proof.
  eexists. split; [vm_compute; reflexivity |].
  split; [cbn [log]; do 3 right; left; reflexivity |].
  split; [reflexivity |]. split; [reflexivity |].
  cbn [best_val_loss]. intros E. symmetry in E. revert E.
  apply (@float_neq_by_ltb _ _ 1%float); reflexivity.
Qed.

Lemma failed_save_raises_before_tracker_update_witness :
  exists st',
    checkpoint_decision (Toy.always true) (Toy.always false) 0
                        [] [("loss"%string, 0.9%float)] 0.9%float Toy.start
    = Raised OSError st' /\
    best_val_loss st' = best_val_loss Toy.start.
Proof.
  apply (proj1 (@failed_save_raises_before_tracker_update
                  float 0%float 1%float PrimFloat.add PrimFloat.sub
                  PrimFloat.mul PrimFloat.div PrimFloat.sqrt float_of_nat (fun x : float => x)
                  nat unit unit (Tensor.tensor3 float) unit nat
                  Toy.forward (Toy.loss_fn [0; 0.9]%float) Toy.acc Toy.backward_step
                  Toy.scheduler_step 2%nat 500%Z (fun _ => [Toy.mb]) 1%nat [Toy.mb]
                  (Toy.always true) (Toy.always false))).
  - reflexivity.
  - reflexivity.
Defined.

Lemma periodic_validation_restores_training_mode_witness :
  exists st',
    Toy.train_step [0.25; 0.5]%float 2 2 [Toy.mb] 1 Toy.start (0%nat, Toy.mb) = Done st' /\
    log st' = [EvEvaluate nat unit ["loss"%string]; EvAddScalars nat unit 0.25 0.5 2] /\
    training st' = true.
Proof.
  destruct (proj1 (@periodic_validation_restores_training_mode
              float 0%float 1%float PrimFloat.add PrimFloat.sub
              PrimFloat.mul PrimFloat.div PrimFloat.sqrt float_of_nat (fun x : float => x)
              nat unit unit (Tensor.tensor3 float) unit nat
              Toy.forward (Toy.loss_fn [0.25; 0.5]%float) Toy.acc Toy.backward_step
              2%nat 2%Z 2%nat [Toy.mb])
              1%nat Toy.start 0%nat Toy.x_diverse tt 0%nat 0.25%float)
    as (st' & Hrun & Hlog & Hmode & _).
  - vm_compute. reflexivity.
  - discriminate.
  - reflexivity.
  - exists st'. split; [exact Hrun |]. split; [| exact Hmode].
    rewrite Hlog. unfold Toy.train_step, Toy.mb in Hrun. vm_compute in Hrun.
    injection Hrun as <-. vm_compute. reflexivity.
Defined.

Lemma empty_loader_raises_unbound_step_witness :
  exists st,
    Toy.main [0.25]%float 3 500 (fun _ => []) 0 [Toy.mb]
             (Toy.always true) (Toy.always true) = Raised UnboundLocalError st /\
    step st = None /\ log st = [].
Proof.
  unfold Toy.main.
  apply (proj2 (@empty_loader_raises_unbound_step
           float 0%float 1%float PrimFloat.add PrimFloat.sub
           PrimFloat.mul PrimFloat.div PrimFloat.sqrt float_of_nat (fun x : float => x)
           nat unit unit (Tensor.tensor3 float) unit nat
           Toy.forward (Toy.loss_fn [0.25]%float) Toy.acc Toy.backward_step
           Toy.scheduler_step 2%nat 3%Z 500%Z (fun _ => []) 0%nat [Toy.mb]
           (Toy.always true) (Toy.always true)) 0%nat tt tt 2%nat).
  - reflexivity.
  - vm_compute. lia.
  - reflexivity.
Defined.

(** Training batch and validation batch are the same and the
    cross-entropy is 0.25 at every weight; the emitted training loss
    carries the penalty sqrt 2, the validation loss does not. *)
Lemma train_loss_has_penalty_val_loss_has_not_witness :
  exists st' reg,
    Toy.train_step [0.25; 0.25]%float 1 1 [Toy.mb_overlap] 0 Toy.start (0%nat, Toy.mb_overlap)
    = Done st' /\
    Toy.regularize Toy.x_overlap 2 = Some reg /\
    tr_loss st' = PrimFloat.add 0 (PrimFloat.add 0.25 reg) /\
    log st' = [EvEvaluate nat unit ["loss"%string];
               EvAddScalars nat unit (PrimFloat.add 0.25 reg) 0.25 0].
Proof.
  assert (Hrun : exists st',
    Toy.train_step [0.25; 0.25]%float 1 1 [Toy.mb_overlap] 0 Toy.start (0%nat, Toy.mb_overlap)
    = Done st') by (eexists; vm_compute; reflexivity).
  destruct Hrun as (st' & Hrun).
  destruct (proj1 (@train_loss_has_penalty_val_loss_has_not
              float 0%float 1%float PrimFloat.add PrimFloat.sub
              PrimFloat.mul PrimFloat.div PrimFloat.sqrt float_of_nat (fun x : float => x)
              nat unit unit (Tensor.tensor3 float) unit nat
              Toy.forward (Toy.loss_fn [0.25; 0.25]%float) Toy.acc Toy.backward_step
              Toy.scheduler_step 2%nat 1%Z 1%nat [Toy.mb_overlap]
              (Toy.always true) (Toy.always true))
            0%nat Toy.start st' 0%nat Toy.x_overlap tt Hrun) as (reg & Hreg & Htr & _).
  exists st', reg. split; [exact Hrun |]. split; [exact Hreg |].
  split; [exact Htr |].
  vm_compute in Hreg. injection Hreg as <-.
  vm_compute in Hrun. injection Hrun as <-. vm_compute. reflexivity.
Defined.

(** *** Runs of the small instance, continued *)

Lemma completed_run_tracker_matches_last_summary_witness :
  exists st,
    Toy.main [0.25; 0.9; 0.7; 0.8]%float 3 2 (fun _ => [Toy.mb; Toy.mb]) 2 [Toy.mb]
             (Toy.always true) (Toy.always true) = Done st /\
    match Trace.last_saved_summary (log st) with
    | None => best_val_loss st = 1e10%float
    | Some vs => lookup "loss"%string vs = Some (best_val_loss st)
    end.
Proof.
  unfold Toy.main.
  assert (Hrun : exists st, @Train.main
              float 0%float 1%float PrimFloat.add PrimFloat.sub
              PrimFloat.mul PrimFloat.div PrimFloat.sqrt float_of_nat (fun x : float => x)
              nat unit unit (Tensor.tensor3 float) unit nat
              Toy.forward (Toy.loss_fn [0.25; 0.9; 0.7; 0.8]%float) Toy.acc Toy.backward_step
              Toy.scheduler_step 2%nat 3%Z 2%Z (fun _ => [Toy.mb; Toy.mb]) 2%nat [Toy.mb]
              (Toy.always true) (Toy.always true) 0%nat tt tt = Done st)
    by (eexists; vm_compute; reflexivity).
  destruct Hrun as (st & Hrun).
  exists st. split; [exact Hrun |].
  exact (@completed_run_tracker_matches_last_summary
              float 0%float 1%float PrimFloat.add PrimFloat.sub
              PrimFloat.mul PrimFloat.div PrimFloat.sqrt float_of_nat (fun x : float => x)
              nat unit unit (Tensor.tensor3 float) unit nat
              Toy.forward (Toy.loss_fn [0.25; 0.9; 0.7; 0.8]%float) Toy.acc Toy.backward_step
              Toy.scheduler_step 2%nat 3%Z 2%Z (fun _ => [Toy.mb; Toy.mb]) 2%nat [Toy.mb]
              (Toy.always true) (Toy.always true) 0%nat tt tt st Hrun).
Defined.

Lemma completed_run_reports_every_epoch_witness :
  exists st,
    Toy.main [0.25; 0.9; 0.7; 0.8]%float 3 2 (fun _ => [Toy.mb; Toy.mb]) 2 [Toy.mb]
             (Toy.always true) (Toy.always true) = Done st /\
    Trace.count_writes (log st) = 3%nat /\
    Trace.count_summary_saves (log st) = count_saves (log st).
Proof.
  unfold Toy.main.
  assert (Hrun : exists st, @Train.main
              float 0%float 1%float PrimFloat.add PrimFloat.sub
              PrimFloat.mul PrimFloat.div PrimFloat.sqrt float_of_nat (fun x : float => x)
              nat unit unit (Tensor.tensor3 float) unit nat
              Toy.forward (Toy.loss_fn [0.25; 0.9; 0.7; 0.8]%float) Toy.acc Toy.backward_step
              Toy.scheduler_step 2%nat 3%Z 2%Z (fun _ => [Toy.mb; Toy.mb]) 2%nat [Toy.mb]
              (Toy.always true) (Toy.always true) 0%nat tt tt = Done st)
    by (eexists; vm_compute; reflexivity).
  destruct Hrun as (st & Hrun).
  exists st. split; [exact Hrun |].
  destruct (@completed_run_reports_every_epoch
              float 0%float 1%float PrimFloat.add PrimFloat.sub
              PrimFloat.mul PrimFloat.div PrimFloat.sqrt float_of_nat (fun x : float => x)
              nat unit unit (Tensor.tensor3 float) unit nat
              Toy.forward (Toy.loss_fn [0.25; 0.9; 0.7; 0.8]%float) Toy.acc Toy.backward_step
              Toy.scheduler_step 2%nat 3%Z 2%Z (fun _ => [Toy.mb; Toy.mb]) 2%nat [Toy.mb]
              (Toy.always true) (Toy.always true) 0%nat tt tt st Hrun) as (Hw & Hs & _).
  split; [exact Hw | exact Hs].
Defined.

Lemma logged_global_steps_strictly_increase_witness :
  StronglySorted Z.lt
    (Trace.scalar_steps (log (final_state
       (Toy.main [0.25; 0.9; 0.7; 0.8]%float 3 2 (fun _ => [Toy.mb; Toy.mb]) 2 [Toy.mb]
                 (Toy.always true) (Toy.always true))))).
Proof.
  unfold Toy.main.
  apply (@logged_global_steps_strictly_increase
              float 0%float 1%float PrimFloat.add PrimFloat.sub
              PrimFloat.mul PrimFloat.div PrimFloat.sqrt float_of_nat (fun x : float => x)
              nat unit unit (Tensor.tensor3 float) unit nat
              Toy.forward (Toy.loss_fn [0.25; 0.9; 0.7; 0.8]%float) Toy.acc Toy.backward_step
              Toy.scheduler_step 2%nat 3%Z 2%Z (fun _ => [Toy.mb; Toy.mb]) 2%nat [Toy.mb]
              (Toy.always true) (Toy.always true) 0%nat tt tt).
  intros e. cbn. lia.
Defined.

Lemma zero_summary_step_raises_after_first_update_witness :
  exists st,
    Toy.main [0.25]%float 3 0 (fun _ => [Toy.mb]) 1 [Toy.mb]
             (Toy.always true) (Toy.always true) = Raised ZeroDivisionError st /\
    model_params st = 1%nat /\ log st = [].
Proof.
  unfold Toy.main.
  destruct (@zero_summary_step_raises_after_first_update
              float 0%float 1%float PrimFloat.add PrimFloat.sub
              PrimFloat.mul PrimFloat.div PrimFloat.sqrt float_of_nat (fun x : float => x)
              nat unit unit (Tensor.tensor3 float) unit nat
              Toy.forward (Toy.loss_fn [0.25]%float) Toy.acc Toy.backward_step
              Toy.scheduler_step 2%nat 3%Z 0%Z (fun _ => [Toy.mb]) 1%nat [Toy.mb]
              (Toy.always true) (Toy.always true) 0%nat tt tt
              Toy.x_diverse tt [] 0%nat 0.25%float)
    as (st & Hrun & Hp & _ & Hl).
  - reflexivity.
  - lia.
  - reflexivity.
  - vm_compute. reflexivity.
  - exists st. split; [exact Hrun |]. split; [exact Hp | exact Hl].
Defined.

Lemma incompatible_rows_raise_before_any_update_witness :
  exists st,
    Toy.main [0.25]%float 3 500
             (fun _ => [(Tensor.mk3 1 3 2 [ [ [1; 0]; [0; 1]; [1; 0] ] ]%float, tt)]) 1 [Toy.mb]
             (Toy.always true) (Toy.always true) = Raised RuntimeError st /\
    model_params st = 0%nat /\ opt_state st = tt /\ log st = [].
Proof.
  unfold Toy.main.
  apply (@incompatible_rows_raise_before_any_update
           float 0%float 1%float PrimFloat.add PrimFloat.sub
           PrimFloat.mul PrimFloat.div PrimFloat.sqrt float_of_nat (fun x : float => x)
           nat unit unit (Tensor.tensor3 float) unit nat
           Toy.forward (Toy.loss_fn [0.25]%float) Toy.acc Toy.backward_step
           Toy.scheduler_step 2%nat 3%Z 500%Z
           (fun _ => [(Tensor.mk3 1 3 2 [ [ [1; 0]; [0; 1]; [1; 0] ] ]%float, tt)])
           1%nat [Toy.mb] (Toy.always true) (Toy.always true) 0%nat tt tt
           (Tensor.mk3 1 3 2 [ [ [1; 0]; [0; 1]; [1; 0] ] ]%float) tt []).
  - lia.
  - reflexivity.
  - cbn. lia.
  - cbn. lia.
  - lia.
Defined.

End TrainFacts.

(* ------------------------------------------------------------------ *)
(** ** Shapes the penalty accepts *)

Module ShapeFacts.
Import Tensor.

Section Scalar.

Variable F : Type.
Variables fzero fone : F.
Variables fadd fsub fmul fdiv : F -> F -> F.
Variable fsqrt : F -> F.
Variable of_nat : nat -> F.

Local Abbreviation regularize := (regularize fzero fone fadd fsub fmul fdiv fsqrt of_nat).
Local Abbreviation dot := (dot fzero fadd fmul).
Local Abbreviation sum_upto := (sum_upto fzero fadd).
Local Abbreviation mean := (mean fzero fadd fdiv of_nat).

Lemma broadcast_dim_none (n m : nat) :
  broadcast_dim n m = None <-> n <> m /\ n <> 1%nat /\ m <> 1%nat.
Proof.
  unfold broadcast_dim.
  destruct (Nat.eqb_spec n m) as [E | E].
  - split; [discriminate | intros [H _]; contradiction].
  - destruct (Nat.eqb_spec n 1) as [E1 | E1].
    + split; [discriminate | intros (_ & H & _); contradiction].
    + destruct (Nat.eqb_spec m 1) as [E2 | E2].
      * split; [discriminate | intros (_ & _ & H); contradiction].
      * split; [now intros _ | reflexivity].
Qed.

(** X1. [regularize] raises exactly when the number of attention rows of
    the tensor and the configured [r] differ and neither of them is 1;
    in every other case it returns a value. *)
Theorem regularize_raises_iff_rows_incompatible (A : tensor3 F) (r : nat) :
  regularize A r = None <-> dim1 A <> r /\ dim1 A <> 1%nat /\ r <> 1%nat.
Proof.
  unfold Tensor.regularize. rewrite TensorFacts.bmm_self.
  unfold sub_broadcast.
  change (dim1 (build3 (dim0 A) (dim1 A) (dim1 A) _)) with (dim1 A).
  change (dim2 (build3 (dim0 A) (dim1 A) (dim1 A) _)) with (dim1 A).
  change (rows2 (eye fzero fone r)) with r.
  change (cols2 (eye fzero fone r)) with r.
  rewrite <- broadcast_dim_none.
  destruct (broadcast_dim (dim1 A) r); [split; discriminate | split; reflexivity].
Qed.

Lemma broadcast_dim_one (n : nat) : broadcast_dim n 1 = Some n.
Proof.
  unfold broadcast_dim. destruct (Nat.eqb_spec n 1) as [E | E]; [reflexivity |].
  reflexivity.
Qed.

Lemma bidx_in_range (n i : nat) : (i < n)%nat -> bidx n i = i.
Proof. unfold bidx. destruct (Nat.eqb_spec n 1); lia. Qed.

(** X2. With [r = 1] configured and a tensor of [n] attention rows the
    identity [eye(1)] is broadcast: no error is raised, and the value is the
    batch mean of the norms of [A_b * A_b^T] with 1 subtracted from every
    entry, the off-diagonal ones included. *)
Theorem regularize_broadcasts_eye_1 (A : tensor3 F) :
  well_shaped A ->
  regularize A 1
  = Some (mean (build1 (dim0 A) (fun b =>
            fsqrt (sum_upto (dim1 A) (fun i => sum_upto (dim1 A) (fun j =>
              fmul (fsub (dot (row A b i) (row A b j)) fone)
                   (fsub (dot (row A b i) (row A b j)) fone))))))).
Proof.
  intros Hws. unfold Tensor.regularize. rewrite TensorFacts.bmm_self.
  unfold sub_broadcast.
  change (dim1 (build3 (dim0 A) (dim1 A) (dim1 A) ?f)) with (dim1 A).
  change (dim2 (build3 (dim0 A) (dim1 A) (dim1 A) ?f)) with (dim1 A).
  change (rows2 (eye fzero fone 1)) with 1%nat.
  change (cols2 (eye fzero fone 1)) with 1%nat.
  rewrite !broadcast_dim_one. do 2 f_equal.
  unfold norm_p2_dim12.
  match goal with
  | |- context [dim0 (build3 ?n ?m ?k ?f)] => change (dim0 (build3 n m k f)) with n
  end.
  match goal with
  | |- context [dim1 (build3 ?n ?m ?k ?f)] => change (dim1 (build3 n m k f)) with m
  end.
  match goal with
  | |- context [dim2 (build3 ?n ?m ?k ?f)] => change (dim2 (build3 n m k f)) with k
  end.
  match goal with
  | |- context [dim0 (build3 ?n ?m ?k ?f)] => change (dim0 (build3 n m k f)) with n
  end.
  apply TensorFacts.build1_ext. intros b Hb. f_equal.
  apply TensorFacts.sum_upto_ext. intros i Hi.
  apply TensorFacts.sum_upto_ext. intros j Hj.
  rewrite TensorFacts.get3_build3 by assumption.
  rewrite !bidx_in_range by assumption.
  rewrite TensorFacts.get3_build3 by assumption.
  change (bidx 1 i) with 0%nat. change (bidx 1 j) with 0%nat.
  change (get2 fzero (eye fzero fone 1) 0 0) with fone.
  rewrite TensorFacts.sim_entry by assumption. reflexivity.
Qed.

(** X3. On an empty batch the list of norms is empty and [mean] divides
    the empty sum by the count 0: the value is [0 / 0] of the scalar
    arithmetic. *)
Theorem regularize_empty_batch (A : tensor3 F) (r : nat) :
  dim0 A = 0%nat -> dim1 A = r ->
  regularize A r = Some (fdiv fzero (of_nat 0)).
Proof.
  intros HB Hr. unfold Tensor.regularize.
  rewrite TensorFacts.bmm_self, TensorFacts.sub_broadcast_eye by exact Hr.
  unfold norm_p2_dim12.
  match goal with
  | |- context [dim0 (build3 ?n ?m ?k ?f)] => change (dim0 (build3 n m k f)) with n
  end.
  match goal with
  | |- context [dim0 (build3 ?n ?m ?k ?f)] => change (dim0 (build3 n m k f)) with n
  end.
  rewrite HB. reflexivity.
Qed.

End Scalar.

Lemma regularize_broadcasts_eye_1_witness :
  RealTensor.regularize RealTensor.two_items 1
  = Some (Tensor.mean 0%R Rplus Rdiv INR
            (build1 2 (fun b =>
               sqrt (Tensor.sum_upto 0%R Rplus 2 (fun i => Tensor.sum_upto 0%R Rplus 2 (fun j =>
                 ((RealTensor.dot (row RealTensor.two_items b i) (row RealTensor.two_items b j) - 1)
                  * (RealTensor.dot (row RealTensor.two_items b i) (row RealTensor.two_items b j) - 1))%R)))))).
Proof.
  apply (@regularize_broadcasts_eye_1 R 0%R 1%R Rplus Rminus Rmult Rdiv sqrt INR
           RealTensor.two_items).
  apply PenaltyFacts.two_items_well_shaped.
Defined.

(** In binary64 arithmetic the value on an empty batch is NaN. *)
Lemma regularize_empty_batch_witness :
  Toy.regularize (mk3 0 2 3 []) 2 = Some nan.
Proof.
  unfold Toy.regularize.
  rewrite (@regularize_empty_batch float 0%float 1%float PrimFloat.add PrimFloat.sub
             PrimFloat.mul PrimFloat.div PrimFloat.sqrt Train.float_of_nat
             (mk3 0 2 3 []) 2%nat eq_refl eq_refl).
  reflexivity.
Defined.

End ShapeFacts.

(* ------------------------------------------------------------------ *)
(** ** The penalty on attention weights *)

Module AttentionBounds.
Import Tensor.

Local Open Scope R_scope.

Lemma dot_cons (x y : R) (u v : list R) :
  RealTensor.dot (x :: u) (y :: v) = x * y + RealTensor.dot u v.
Proof.
  unfold RealTensor.dot, dot. cbn [combine map fst snd].
  apply PenaltyFacts.fsum_cons.
Qed.

Lemma dot_nil_l (v : list R) : RealTensor.dot [] v = 0.
Proof. reflexivity. Qed.

Lemma dot_nil_r (u : list R) : RealTensor.dot u [] = 0.
Proof. destruct u; reflexivity. Qed.

(** Non-negative numbers are each at most their sum. *)
Lemma entries_le_sum (v : list R) :
  Forall (fun x => 0 <= x) v -> Forall (fun x => 0 <= x <= fsum 0 Rplus v) v.
Proof.
  induction 1 as [|x v Hx Hv IH].
  - constructor.
  - rewrite PenaltyFacts.fsum_cons.
    pose proof (PenaltyFacts.fsum_nonneg Hv) as Hs.
    constructor; [lra |].
    eapply Forall_impl; [| exact IH]. cbv beta. intros y Hy. lra.
Qed.

Lemma dot_bounds (u v : list R) :
  Forall (fun x => 0 <= x) u -> Forall (fun x => 0 <= x <= 1) v ->
  0 <= RealTensor.dot u v <= fsum 0 Rplus u.
Proof.
  intros Hu. revert v. induction Hu as [|x u Hx Hu IH]; intros v Hv.
  - rewrite dot_nil_l. unfold fsum. cbn. lra.
  - destruct Hv as [|y v Hy Hv].
    + rewrite dot_nil_r, PenaltyFacts.fsum_cons.
      pose proof (PenaltyFacts.fsum_nonneg Hu). lra.
    + rewrite dot_cons, PenaltyFacts.fsum_cons.
      specialize (IH v Hv). nra.
Qed.


(** The rows of an attention tensor, read through the shape. *)
Lemma attention_row (A : RealTensor.tensor3) (b i : nat) :
  well_shaped A -> RealTensor.is_attention A ->
  (b < dim0 A)%nat -> (i < dim1 A)%nat ->
  Forall (fun x => 0 <= x <= 1) (row A b i) /\ fsum 0 Rplus (row A b i) = 1.
Proof.
  intros [Hlen Hws] Hatt Hb Hi. destruct (Hws b Hb) as [Hitem _].
  unfold RealTensor.is_attention in Hatt. rewrite Forall_forall in Hatt.
  assert (Hin : In (nth b (data3 A) []) (data3 A)) by (apply nth_In; lia).
  specialize (Hatt _ Hin). rewrite Forall_forall in Hatt.
  assert (Hin' : In (row A b i) (nth b (data3 A) [])) by (apply nth_In; lia).
  destruct (Hatt _ Hin') as [Hpos Hsum].
  split; [| exact Hsum].
  rewrite <- Hsum. now apply entries_le_sum.
Qed.

Lemma item_diff_square_le_1 (A : RealTensor.tensor3) (b i j : nat) :
  well_shaped A -> RealTensor.is_attention A ->
  (b < dim0 A)%nat -> (i < dim1 A)%nat -> (j < dim1 A)%nat ->
  item_diff 0 1 Rplus Rminus Rmult A b i j * item_diff 0 1 Rplus Rminus Rmult A b i j <= 1.
Proof.
  intros Hws Hatt Hb Hi Hj.
  destruct (attention_row Hws Hatt Hb Hi) as [Hu Hsu].
  destruct (attention_row Hws Hatt Hb Hj) as [Hv _].
  assert (Hpos : Forall (fun x => 0 <= x) (row A b i))
    by (eapply Forall_impl; [| exact Hu]; cbv beta; intros; lra).
  pose proof (dot_bounds Hpos Hv) as Hd. rewrite Hsu in Hd.
  unfold item_diff. fold (RealTensor.dot (row A b i) (row A b j)).
  destruct (i =? j)%nat; nra.
Qed.

Lemma fsum_le_count (c : R) (l : list R) :
  Forall (fun x => x <= c) l -> fsum 0 Rplus l <= INR (length l) * c.
Proof.
  induction 1 as [|x l Hx _ IH].
  - unfold fsum. cbn. lra.
  - rewrite PenaltyFacts.fsum_cons. cbn [length]. rewrite S_INR. lra.
Qed.

Lemma sum_upto_le_count (c : R) (n : nat) (f : nat -> R) :
  (forall i, (i < n)%nat -> f i <= c) -> sum_upto 0 Rplus n f <= INR n * c.
Proof.
  intros H. unfold sum_upto.
  rewrite <- (TensorFacts.length_build1 n f) at 2.
  apply fsum_le_count, PenaltyFacts.Forall_build1, H.
Qed.

Lemma item_norm_le_rows (A : RealTensor.tensor3) (b : nat) :
  well_shaped A -> RealTensor.is_attention A -> (b < dim0 A)%nat ->
  item_norm 0 1 Rplus Rminus Rmult sqrt A (dim1 A) b <= INR (dim1 A).
Proof.
  intros Hws Hatt Hb. unfold item_norm.
  assert (E : sqrt (INR (dim1 A) * INR (dim1 A)) = INR (dim1 A))
    by apply sqrt_square, pos_INR.
  rewrite <- E.
  apply sqrt_le_1.
  - apply PenaltyFacts.item_squares_nonneg.
  - apply Rmult_le_pos; apply pos_INR.
  - apply sum_upto_le_count. intros i Hi.
    replace (INR (dim1 A)) with (INR (dim1 A) * 1) by lra.
    apply sum_upto_le_count. intros j Hj.
    now apply item_diff_square_le_1.
Qed.

(** X4. On attention weights (entries non-negative, every row summing to
    1) of a non-empty batch, the penalty is at most the number of
    attention rows [r]. *)
Theorem regularize_attention_at_most_rows (A : RealTensor.tensor3) (r : nat) :
  well_shaped A -> dim1 A = r -> (0 < dim0 A)%nat -> RealTensor.is_attention A ->
  exists p : R, RealTensor.regularize A r = Some p /\ 0 <= p <= INR r.
Proof.
  intros Hws Hr HB Hatt. exists (RealTensor.spec_penalty A r).
  split; [now apply TensorFacts.regularize_refines |].
  split; [now apply PenaltyFacts.spec_penalty_nonneg |].
  unfold RealTensor.spec_penalty, spec_penalty, mean.
  rewrite TensorFacts.length_build1.
  pose proof (lt_0_INR _ HB) as HI.
  apply (Rmult_le_reg_r (INR (dim0 A))); [exact HI |].
  unfold Rdiv. rewrite Rmult_assoc, Rinv_l, Rmult_1_r by lra.
  rewrite (Rmult_comm (INR r)).
  apply sum_upto_le_count. intros b Hb.
  subst r. now apply item_norm_le_rows.
Qed.

Lemma regularize_attention_at_most_rows_witness :
  exists p : R, RealTensor.regularize RealTensor.two_items 2 = Some p /\ 0 <= p <= INR 2.
Proof.
  apply (@regularize_attention_at_most_rows RealTensor.two_items 2%nat).
  - apply PenaltyFacts.two_items_well_shaped.
  - reflexivity.
  - cbn. lia.
  - apply PenaltyFacts.two_items_is_attention.
Defined.





End AttentionBounds.

(* ------------------------------------------------------------------ *)
(** ** Facts about the data loaders *)

Module LoaderFacts.
Import Loader.

Section Loaders.

Variable example : Type.
Variable batch : Type.
Variable collate_fn : list example -> batch.

Lemma div_one_more (b n : nat) : (0 < b)%nat -> ((b + n) / b = 1 + n / b)%nat.
Proof.
  intros Hb. replace (b + n)%nat with (1 * b + n)%nat by lia.
  apply Nat.div_add_l. lia.
Qed.

(** The number of groups of the batch sampler, from a partial group of
    fewer than [bs] examples. *)
Lemma batch_sampler_length (bs : nat) (dl : bool) (l : list example) :
  (0 < bs)%nat ->
  forall cur : list example,
    (length cur < bs)%nat ->
    length (batch_sampler bs dl cur l)
    = if dl then ((length cur + length l) / bs)%nat
      else ((length cur + length l + bs - 1) / bs)%nat.
Proof.
  intros Hbs. induction l as [|x l IH]; intros cur Hcur.
  - cbn [batch_sampler length]. rewrite Nat.add_0_r. destruct dl.
    + rewrite andb_false_r. cbn [length]. symmetry. now apply Nat.div_small.
    + rewrite andb_true_r. destruct (Nat.ltb_spec 0 (length cur)) as [Hc | Hc].
      * cbn [length].
        apply (Nat.div_unique _ _ 1 (length cur - 1)); lia.
      * cbn [length]. symmetry. apply Nat.div_small. lia.
  - cbn [batch_sampler]. rewrite length_app. cbn [length].
    destruct (Nat.eqb_spec (length cur + 1) bs) as [E | E].
    + cbn [length]. rewrite (IH [] Hbs). cbn [length]. destruct dl.
      * replace (length cur + S (length l))%nat with (bs + length l)%nat by lia.
        rewrite div_one_more by exact Hbs. reflexivity.
      * replace (length cur + S (length l) + bs - 1)%nat
          with (bs + (0 + length l + bs - 1))%nat by lia.
        rewrite div_one_more by exact Hbs. reflexivity.
    + rewrite IH by (rewrite length_app; cbn [length]; lia).
      rewrite length_app. cbn [length].
      replace (length cur + 1 + length l)%nat with (length cur + S (length l))%nat by lia.
      reflexivity.
Qed.

(** With [drop_last] every group has exactly [bs] examples. *)
Lemma batch_sampler_full_groups (bs : nat) (l cur : list example) :
  Forall (fun g => length g = bs) (batch_sampler bs true cur l).
Proof.
  revert cur. induction l as [|x l IH]; intros cur.
  - cbn [batch_sampler]. rewrite andb_false_r. constructor.
  - cbn [batch_sampler].
    destruct (Nat.eqb_spec (length (cur ++ [x])) bs) as [E | E].
    + constructor; [exact E | apply IH].
    + apply IH.
Qed.

(** Without [drop_last] no group is empty or longer than [bs]. *)
Lemma batch_sampler_group_sizes (bs : nat) (l : list example) :
  (0 < bs)%nat ->
  forall cur : list example,
    (length cur < bs)%nat ->
    Forall (fun g => (0 < length g <= bs)%nat) (batch_sampler bs false cur l).
Proof.
  intros Hbs. induction l as [|x l IH]; intros cur Hcur.
  - cbn [batch_sampler]. rewrite andb_true_r.
    destruct (Nat.ltb_spec 0 (length cur)); repeat constructor; lia.
  - cbn [batch_sampler]. rewrite length_app. cbn [length].
    destruct (Nat.eqb_spec (length cur + 1) bs) as [E | E].
    + constructor.
      * rewrite length_app. cbn [length]. lia.
      * apply IH. cbn [length]. exact Hbs.
    + apply IH. rewrite length_app. cbn [length]. lia.
Qed.

(** Without [drop_last] the groups, put end to end, are the examples. *)
Lemma batch_sampler_keeps_all (bs : nat) (l cur : list example) :
  concat (batch_sampler bs false cur l) = cur ++ l.
Proof.
  revert cur. induction l as [|x l IH]; intros cur.
  - cbn [batch_sampler]. rewrite andb_true_r.
    destruct (Nat.ltb_spec 0 (length cur)) as [Hc | Hc]; cbn [concat].
    + reflexivity.
    + destruct cur; [reflexivity | cbn [length] in Hc; lia].
  - cbn [batch_sampler].
    destruct (length (cur ++ [x]) =? bs)%nat; cbn [concat]; rewrite IH;
      now rewrite <- app_assoc.
Qed.

(** With [drop_last] the groups are the examples without a last part
    shorter than [bs]. *)
Lemma batch_sampler_drops_tail (bs : nat) (l : list example) :
  (0 < bs)%nat ->
  forall cur : list example,
    (length cur < bs)%nat ->
    exists rest,
      concat (batch_sampler bs true cur l) ++ rest = cur ++ l /\
      (length rest < bs)%nat.
Proof.
  intros Hbs. induction l as [|x l IH]; intros cur Hcur.
  - cbn [batch_sampler]. rewrite andb_false_r. exists cur.
    cbn [concat app]. now rewrite app_nil_r.
  - cbn [batch_sampler]. rewrite length_app. cbn [length].
    destruct (Nat.eqb_spec (length cur + 1) bs) as [E | E].
    + destruct (IH [] Hbs) as (rest & Hrest & Hlen). exists rest.
      cbn [concat]. rewrite <- !app_assoc, Hrest. split; [reflexivity | exact Hlen].
    + destruct (IH (cur ++ [x])) as (rest & Hrest & Hlen).
      { rewrite length_app. cbn [length]. lia. }
      exists rest. rewrite Hrest, <- app_assoc. split; [reflexivity | exact Hlen].
Qed.

Local Abbreviation get_data_loaders := (@get_data_loaders example).
Local Abbreviation groups := (@groups example).
Local Abbreviation batches := (batches collate_fn).

Lemma get_data_loaders_some (tr_ds val_ds : list example) (bsz : Z)
      (tr_dl val_dl : DataLoader example) :
  get_data_loaders tr_ds val_ds bsz = Some (tr_dl, val_dl) ->
  (0 < Z.to_nat bsz)%nat /\
  tr_dl = mkDataLoader tr_ds (Z.to_nat bsz) true true /\
  val_dl = mkDataLoader val_ds (Z.to_nat bsz) false false.
Proof.
  unfold Loader.get_data_loaders. destruct (Z.leb_spec bsz 0) as [H | H]; [discriminate |].
  intros E. injection E as <- <-. repeat split. lia.
Qed.

(** X13. For the two loaders of [get_data_loaders], iterating a loader
    yields exactly [len(loader)] batches, whatever order the sampler draws:
    the training examples divided by the batch size and rounded down, the
    validation examples divided by it and rounded up. *)
Theorem loaders_yield_len_batches
        (tr_ds val_ds : list example) (bsz : Z) (tr_dl val_dl : DataLoader example)
        (order : list example -> list example) :
  get_data_loaders tr_ds val_ds bsz = Some (tr_dl, val_dl) ->
  (forall l, length (order l) = length l) ->
  length (batches order tr_dl) = len tr_dl /\
  len tr_dl = (length tr_ds / Z.to_nat bsz)%nat /\
  length (batches order val_dl) = len val_dl /\
  len val_dl = ((length val_ds + Z.to_nat bsz - 1) / Z.to_nat bsz)%nat.
Proof.
  intros Hget Hord. destruct (get_data_loaders_some _ _ _ Hget) as (Hbs & -> & ->).
  unfold Loader.batches, Loader.groups, len.
  cbn [dataset batch_size shuffle drop_last].
  rewrite !length_map, !batch_sampler_length by (cbn [length]; lia).
  cbn [length]. now rewrite Hord.
Qed.

(** X14. Every training batch is collated from exactly [batch_size]
    examples, and an epoch leaves out fewer than [batch_size] examples of
    the shuffled training set, using no example twice. *)
Theorem training_batches_are_full
        (tr_ds val_ds : list example) (bsz : Z) (tr_dl val_dl : DataLoader example)
        (order : list example -> list example) :
  get_data_loaders tr_ds val_ds bsz = Some (tr_dl, val_dl) ->
  (forall l, Permutation (order l) l) ->
  Forall (fun g => length g = Z.to_nat bsz) (groups order tr_dl) /\
  exists rest,
    Permutation (concat (groups order tr_dl) ++ rest) tr_ds /\
    (length rest < Z.to_nat bsz)%nat.
Proof.
  intros Hget Hord. destruct (get_data_loaders_some _ _ _ Hget) as (Hbs & -> & _).
  unfold Loader.groups. cbn [dataset batch_size shuffle drop_last]. split.
  - apply batch_sampler_full_groups.
  - destruct (batch_sampler_drops_tail (order tr_ds) Hbs [] Hbs) as (rest & Hrest & Hlen).
    exists rest. rewrite Hrest. cbn [app]. split; [apply Hord | exact Hlen].
Qed.

(** X15. The validation batches, in order, contain every validation
    example exactly once and in the order of the dataset; no batch is empty
    and none has more than [batch_size] examples. *)
Theorem validation_batches_cover_dataset
        (tr_ds val_ds : list example) (bsz : Z) (tr_dl val_dl : DataLoader example)
        (order : list example -> list example) :
  get_data_loaders tr_ds val_ds bsz = Some (tr_dl, val_dl) ->
  concat (groups order val_dl) = val_ds /\
  Forall (fun g => (0 < length g <= Z.to_nat bsz)%nat) (groups order val_dl).
Proof.
  intros Hget. destruct (get_data_loaders_some _ _ _ Hget) as (Hbs & _ & ->).
  unfold Loader.groups. cbn [dataset batch_size shuffle drop_last]. split.
  - apply batch_sampler_keeps_all.
  - apply batch_sampler_group_sizes; [exact Hbs | exact Hbs].
Qed.

End Loaders.

(** *** A training set smaller than one batch *)

Section SmallTrainingSet.

Variable F : Type.
Variables fzero fone : F.
Variables fadd fsub fmul fdiv : F -> F -> F.
Variable fsqrt : F -> F.
Variable of_nat : nat -> F.
Variable item : F -> float.
Variables params optstate schedstate : Type.
Variables input label score : Type.
Variable forward : params -> bool -> input -> score * Tensor.tensor3 F.
Variable loss_fn : score -> label -> F.
Variable acc : score -> label -> F.
Variable backward_step : bool -> params -> optstate -> input -> label -> params * optstate.
Variable scheduler_step : schedstate -> optstate -> float -> schedstate * optstate.
Variable r : nat.
Variable epochs : Z.
Variable summary_step : Z.
Variable summary_save_ok : nat -> bool.
Variable checkpoint_save_ok : nat -> bool.

Variable example : Type.
Variable collate_fn : list example -> Train.minibatch input label.
(** The permutation the random sampler draws in each epoch. *)
Variable order : nat -> list example -> list example.

Local Abbreviation main_on_loaders :=
  (Pipeline.main_on_loaders fzero fone fadd fsub fmul fdiv fsqrt of_nat item forward loss_fn acc
     backward_step scheduler_step r epochs summary_step summary_save_ok checkpoint_save_ok
     collate_fn order).

(** X16. When the training set has fewer examples than [batch_size],
    [drop_last] leaves the training loader without a batch, and a run of at
    least one epoch ends in the first epoch with [UnboundLocalError],
    nothing logged and the weights untouched. *)
Theorem small_training_set_raises_unbound_step
        (tr_ds val_ds : list example) (bsz : Z) (tr_dl val_dl : DataLoader example)
        (p0 : params) (o0 : optstate) (s0 : schedstate) :
  get_data_loaders tr_ds val_ds bsz = Some (tr_dl, val_dl) ->
  (forall e l, length (order e l) = length l) ->
  (Z.of_nat (length tr_ds) < bsz)%Z ->
  (0 < epochs)%Z ->
  exists st,
    main_on_loaders tr_dl val_dl p0 o0 s0 = Train.Raised Train.UnboundLocalError st /\
    Train.model_params st = p0 /\ Train.log st = [].
Proof.
  intros Hget Hord Hsmall Hep.
  destruct (get_data_loaders_some _ _ _ Hget) as (Hbs & -> & _).
  assert (Hempty : batches collate_fn (order 0%nat)
                     (mkDataLoader tr_ds (Z.to_nat bsz) true true) = []).
  { apply length_zero_iff_nil. unfold batches, groups.
    cbn [dataset batch_size shuffle drop_last].
    rewrite length_map, batch_sampler_length by (cbn [length]; lia).
    cbn [length]. rewrite Hord. apply Nat.div_small. lia. }
  unfold Pipeline.main_on_loaders, Train.main.
  destruct (Z.to_nat epochs) as [|n] eqn:En; [lia |].
  cbn [seq]. eexists. split.
  - apply TrainFacts.for_each_raised.
    apply TrainFacts.run_epoch_unbound_step; [exact Hempty | reflexivity].
  - split; reflexivity.
Qed.

End SmallTrainingSet.

(** *** Loaders over five training and three validation examples *)

Lemma loaders_yield_len_batches_witness :
  length (Loader.batches (fun g : list nat => g) (@rev nat)
            (Loader.mkDataLoader [1; 2; 3; 4; 5]%nat 2 true true)) = 2%nat /\
  length (Loader.batches (fun g : list nat => g) (@rev nat)
            (Loader.mkDataLoader [6; 7; 8]%nat 2 false false)) = 2%nat.
Proof.
  destruct (@loaders_yield_len_batches nat (list nat) (fun g => g)
              [1; 2; 3; 4; 5]%nat [6; 7; 8]%nat 2%Z _ _ (@rev nat) eq_refl (@length_rev nat))
    as (H1 & H2 & H3 & H4).
  split.
  - exact (eq_trans H1 H2).
  - exact (eq_trans H3 H4).
Defined.

Lemma training_batches_are_full_witness :
  Forall (fun g => length g = 2%nat)
         (Loader.groups (@rev nat) (Loader.mkDataLoader [1; 2; 3; 4; 5]%nat 2 true true)).
Proof.
  apply (@training_batches_are_full nat [1; 2; 3; 4; 5]%nat [6; 7; 8]%nat 2%Z _ _ (@rev nat)
           eq_refl).
  intros l. apply Permutation_sym, Permutation_rev.
Defined.

Lemma validation_batches_cover_dataset_witness :
  concat (Loader.groups (@rev nat) (Loader.mkDataLoader [6; 7; 8]%nat 2 false false))
  = [6; 7; 8]%nat.
Proof.
  apply (@validation_batches_cover_dataset nat [1; 2; 3; 4; 5]%nat [6; 7; 8]%nat 2%Z _ _
           (@rev nat) eq_refl).
Defined.

Lemma small_training_set_raises_unbound_step_witness :
  exists st,
    Pipeline.main_on_loaders 0%float 1%float PrimFloat.add PrimFloat.sub
      PrimFloat.mul PrimFloat.div PrimFloat.sqrt Train.float_of_nat (fun x : float => x)
      Toy.forward (Toy.loss_fn [0.25]%float) Toy.acc Toy.backward_step Toy.scheduler_step
      2 3 500 (Toy.always true) (Toy.always true)
      (fun g => hd Toy.mb g) (fun _ l => l)
      (Loader.mkDataLoader [Toy.mb] 2 true true)
      (Loader.mkDataLoader [Toy.mb] 2 false false) 0%nat tt tt
    = Train.Raised Train.UnboundLocalError st /\
    Train.model_params st = 0%nat /\ Train.log st = [].
Proof.
  apply (@small_training_set_raises_unbound_step
           float 0%float 1%float PrimFloat.add PrimFloat.sub
           PrimFloat.mul PrimFloat.div PrimFloat.sqrt Train.float_of_nat (fun x : float => x)
           nat unit unit (Tensor.tensor3 float) unit nat
           Toy.forward (Toy.loss_fn [0.25]%float) Toy.acc Toy.backward_step Toy.scheduler_step
           2%nat 3%Z 500%Z (Toy.always true) (Toy.always true)
           _ (fun g => hd Toy.mb g) (fun _ l => l) [Toy.mb] [Toy.mb] 2%Z _ _ 0%nat tt tt).
  - reflexivity.
  - reflexivity.
  - cbn. lia.
  - lia.
Defined.

End LoaderFacts.
